(** * Himada: the fetch / clamp / save pipeline of [himada/app.py]

    A shallow embedding of [enforce_yahoo_limits] and [fetch_and_save_csv]
    and the properties of the Limit Enforcer and of the per-ticker loop.

    Python values are modelled as follows.
    - [str] is a sequence of Unicode code points ([list N]); [==] and
      set membership are exact equality of code-point sequences.
    - [str | None] is [option str].
    - The [DownloadConfig] dataclass instance is one mutable object; it
      lives in the machine state, so that the assignment to [cfg.mode]
      and [cfg.period] is visible after the run.
    - yfinance, pandas, pathlib and the file system are collaborators
      behind the interface [Collaborators]; every call the pipeline makes
      to them is recorded in a trace of [Event]s, together with the lines
      handed to the [log] callback.
    - A raised Python exception is [Raise e]; [e] stands for an instance
      of [Exception], the class both [except] clauses of the pipeline
      name. The [log] callback itself returns normally. *)

From Stdlib Require Import List NArith Bool String Ascii Lia.
From Stdlib Require Import ZArith.
Import ListNotations.

Set Implicit Arguments.

(** ** Python strings *)

Definition codepoint := N.
Definition str := list codepoint.

(** An ASCII literal as a [str] (one code point per character). *)
Definition u (s : string) : str := map N_of_ascii (list_ascii_of_string s).

Fixpoint str_eqb (a b : str) : bool :=
  match a, b with
  | [], [] => true
  | x :: a', y :: b' => N.eqb x y && str_eqb a' b'
  | _, _ => false
  end.

Definition opt_str_eqb (a b : option str) : bool :=
  match a, b with
  | None, None => true
  | Some x, Some y => str_eqb x y
  | _, _ => false
  end.

(** [x in {...}] for a set literal given by its elements. *)
Definition py_in {A : Type} (eqb : A -> A -> bool) (x : A) (s : list A) : bool :=
  existsb (eqb x) s.

(** [str.isspace] on one code point: the code points Python treats as
    white space. *)
Definition is_space (c : codepoint) : bool :=
  ((9 <=? c) && (c <=? 13) || (28 <=? c) && (c <=? 32)
   || (c =? 133) || (c =? 160) || (c =? 5760)
   || (8192 <=? c) && (c <=? 8202)
   || (c =? 8232) || (c =? 8233) || (c =? 8239) || (c =? 8287)
   || (c =? 12288))%N.

Fixpoint lstrip (s : str) : str :=
  match s with
  | c :: s' => if is_space c then lstrip s' else s
  | [] => []
  end.

Definition rstrip (s : str) : str := rev (lstrip (rev s)).

(** [s.strip()] *)
Definition strip (s : str) : str := rstrip (lstrip s).

(** [s.replace('/', '_')] *)
Definition replace_slash (s : str) : str :=
  map (fun c => if (c =? 47)%N then 95%N else c) s.

(** [not s] for a string. *)
Definition py_not_str (s : str) : bool :=
  match s with [] => true | _ => false end.

(** [x or d] for [x : str | None]: [None] and the empty string are falsy. *)
Definition py_or (x : option str) (d : str) : str :=
  match x with
  | None => d
  | Some [] => d
  | Some s => s
  end.

(** [f"{x}"] for [x : str | None]. *)
Definition fmt_opt (x : option str) : str :=
  match x with
  | None => u "None"
  | Some s => s
  end.

(** The three pictographs that open the log lines. *)
Definition warning_sign : str := [9888; 65039]%N.   (* U+26A0 U+FE0F *)
Definition cross_mark : str := [10060]%N.           (* U+274C *)
Definition check_mark : str := [9989]%N.            (* U+2705 *)

(** [s.startswith(p)] *)
Fixpoint startswith (p s : str) : bool :=
  match p, s with
  | [], _ => true
  | x :: p', y :: s' => N.eqb x y && startswith p' s'
  | _ :: _, [] => false
  end.

(** ** Exceptions and results *)

Record PyExc := Exc { exc_str : str }.

Inductive Result (A : Type) : Type :=
| Ok (a : A)
| Raise (e : PyExc).
Arguments Ok {A} a.
Arguments Raise {A} e.

(** ** The collaborators *)

(** Keyword arguments of [Ticker.history] in its two call shapes. *)
Inductive HistoryCall :=
| HistoryRange (start end_ : option str) (interval : str)
               (actions auto_adjust : bool)
| HistoryPeriod (period : str) (interval : str)
                (actions auto_adjust : bool).

Class Collaborators := {
  World : Type;
  Path : Type;
  DataFrame : Type;
  (** [p / name] *)
  truediv : Path -> str -> Path;
  (** [str(p)] *)
  path_str : Path -> str;
  (** [p.mkdir(parents=True, exist_ok=True)] *)
  mkdir : Path -> World -> Result unit * World;
  (** [yf.Ticker(ticker).history(...)] *)
  history : str -> HistoryCall -> World -> Result (option DataFrame) * World;
  (** [df.empty] *)
  df_empty : DataFrame -> bool;
  (** [df.copy()], [df.index.name = "Date"], [df.reset_index(inplace=True)] *)
  reset_index_Date : DataFrame -> DataFrame;
  (** ["Date" in df.columns and is_datetime64_any_dtype(df["Date"])] *)
  has_datetime_Date : DataFrame -> bool;
  (** [df["Date"] = df["Date"].dt.tz_localize(None)] *)
  tz_localize_None : DataFrame -> Result DataFrame;
  (** [df.to_csv(p, index=False)] *)
  to_csv : DataFrame -> Path -> World -> Result unit * World
}.

(** ** The configuration object *)

Record DownloadConfig `{Collaborators} := mkConfig {
  tickers : list str;
  interval : str;
  include_actions : bool;
  auto_adjust : bool;
  out_dir : Path;
  mode : str;
  start : option str;
  end_ : option str;
  period : option str
}.
Arguments mkConfig {_} _ _ _ _ _ _ _ _ _.

(** ** Machine state and the pipeline monad *)

Inductive Event `{Collaborators} :=
| EvMkdir (p : Path)
| EvLog (line : str)
| EvHistory (ticker : str) (call : HistoryCall)
| EvToCsv (df : DataFrame) (p : Path).

Record State `{Collaborators} := mkState {
  world : World;
  cfg : DownloadConfig;
  trace : list Event
}.
Arguments mkState {_} _ _ _.

Definition M `{Collaborators} (A : Type) : Type := State -> Result A * State.

Definition ret `{Collaborators} {A : Type} (a : A) : M A := fun st => (Ok a, st).

Definition bind `{Collaborators} {A B : Type} (m : M A) (k : A -> M B) : M B :=
  fun st =>
    match m st with
    | (Ok a, st') => k a st'
    | (Raise e, st') => (Raise e, st')
    end.

(** [try: m  except Exception as e: h e] *)
Definition try_except `{Collaborators} {A : Type} (m : M A) (h : PyExc -> M A) : M A :=
  fun st =>
    match m st with
    | (Ok a, st') => (Ok a, st')
    | (Raise e, st') => h e st'
    end.

Declare Scope py_scope.
Delimit Scope py_scope with py.
Notation "x <- m ;; k" := (bind m (fun x => k))
  (at level 61, m at next level, right associativity) : py_scope.
Notation "m ;; k" := (bind m (fun _ => k))
  (at level 61, right associativity) : py_scope.
Local Open Scope py_scope.

Definition emit `{Collaborators} (ev : Event) (st : State) : State :=
  mkState (world st) (cfg st) (trace st ++ [ev]).

Definition set_world `{Collaborators} (w : World) (st : State) : State :=
  mkState w (cfg st) (trace st).

(** The [log] callback: the line is appended to the trace. *)
Definition log `{Collaborators} (line : str) : M unit :=
  fun st => (Ok tt, emit (EvLog line) st).

Definition get_cfg `{Collaborators} : M DownloadConfig :=
  fun st => (Ok (cfg st), st).

(** The object [c] after [c.mode, c.period = m, p]. *)
Definition with_mode_period `{Collaborators} (c : DownloadConfig)
  (m : str) (p : option str) : DownloadConfig :=
  mkConfig (tickers c) (interval c) (include_actions c) (auto_adjust c)
           (out_dir c) m (start c) (end_ c) p.

(** [cfg.mode, cfg.period = m, p] *)
Definition assign_mode_period `{Collaborators} (m : str) (p : option str) : M unit :=
  fun st => (Ok tt, mkState (world st) (with_mode_period (cfg st) m p) (trace st)).

Definition call_mkdir `{Collaborators} (p : Path) : M unit :=
  fun st =>
    let st1 := emit (EvMkdir p) st in
    let (r, w) := mkdir p (world st1) in (r, set_world w st1).

Definition call_history `{Collaborators} (ticker : str) (c : HistoryCall)
  : M (option DataFrame) :=
  fun st =>
    let st1 := emit (EvHistory ticker c) st in
    let (r, w) := history ticker c (world st1) in (r, set_world w st1).

Definition call_to_csv `{Collaborators} (df : DataFrame) (p : Path) : M unit :=
  fun st =>
    let st1 := emit (EvToCsv df p) st in
    let (r, w) := to_csv df p (world st1) in (r, set_world w st1).

(** [for x in l: body x] *)
Fixpoint for_each `{Collaborators} {A : Type} (l : list A) (body : A -> M unit) : M unit :=
  match l with
  | [] => ret tt
  | x :: l' => body x ;; for_each l' body
  end.

(** ** [enforce_yahoo_limits] *)

Definition line_clamp_7d : str :=
  warning_sign ++ u " Interval=1m is limited by Yahoo; clamping period to 7d.".

Definition line_clamp_60d : str :=
  warning_sign
  ++ u " Intraday intervals are limited by Yahoo; clamping period to 60d.".

Definition intraday_intervals : list str :=
  [u "1m"; u "2m"; u "5m"; u "15m"; u "30m"; u "60m"; u "90m"; u "1h"].

Definition longish : list (option str) :=
  [None; Some (u "max"); Some (u "ytd"); Some (u "10y"); Some (u "5y");
   Some (u "2y"); Some (u "1y"); Some (u "6mo"); Some (u "3mo")].

Definition enforce_yahoo_limits `{Collaborators}
  (interval requested_mode : str) (requested_period : option str)
  : M (str * option str) :=
  let intraday := py_in str_eqb interval intraday_intervals in
  if negb intraday then ret (requested_mode, requested_period)
  else
    if py_in str_eqb requested_mode [u "max"; u "period"]
       && py_in opt_str_eqb requested_period longish
    then
      if str_eqb interval (u "1m") then
        log line_clamp_7d ;;
        ret (u "period", Some (u "7d"))
      else
        log line_clamp_60d ;;
        ret (u "period", Some (u "60d"))
    else ret (requested_mode, requested_period).

(** ** [fetch_and_save_csv] *)

(** The file name of line 130:
    [f"{ticker.replace('/', '_')}_{cfg.interval}_{file_tag}.csv"]. *)
Definition out_name (ticker interval file_tag : str) : str :=
  replace_slash ticker ++ u "_" ++ interval ++ u "_" ++ file_tag ++ u ".csv".

(** The body of the first [try]: the mode-specific call of the provider.
    It yields the returned frame and the file tag. *)
Definition fetch_block `{Collaborators} (ticker : str)
  : M (option DataFrame * str) :=
  c <- get_cfg ;;
  if str_eqb (mode c) (u "range") then
    df <- call_history ticker
            (HistoryRange (start c) (end_ c) (interval c)
                          (include_actions c) (auto_adjust c)) ;;
    ret (df, fmt_opt (start c) ++ u "_" ++ fmt_opt (end_ c))
  else if str_eqb (mode c) (u "period") then
    let period := py_or (period c) (u "1mo") in
    df <- call_history ticker
            (HistoryPeriod period (interval c)
                           (include_actions c) (auto_adjust c)) ;;
    ret (df, period)
  else
    df <- call_history ticker
            (HistoryPeriod (u "max") (interval c)
                           (include_actions c) (auto_adjust c)) ;;
    ret (df, u "max").

(** Lines 118 to 128: the frame made CSV-friendly; a failure to drop the
    time zone is swallowed. *)
Definition csv_friendly `{Collaborators} (df : DataFrame) : DataFrame :=
  let df1 := reset_index_Date df in
  if has_datetime_Date df1 then
    match tz_localize_None df1 with
    | Ok df2 => df2
    | Raise _ => df1
    end
  else df1.

(** The log lines of the loop, one definition per f-string. *)
Definition line_fetching (ticker interval mode : str) : str :=
  u "Fetching: " ++ ticker ++ u " | interval=" ++ interval ++ u " | mode=" ++ mode.

Definition line_error_fetching (ticker : str) (e : PyExc) : str :=
  cross_mark ++ u " Error fetching " ++ ticker ++ u ": " ++ exc_str e.

Definition line_no_data (ticker : str) : str :=
  warning_sign ++ u " No data returned for " ++ ticker ++ u ".".

Definition line_saved (out_file : str) : str :=
  check_mark ++ u " Saved: " ++ out_file.

Definition line_error_saving (ticker : str) (e : PyExc) : str :=
  cross_mark ++ u " Error saving " ++ ticker ++ u ": " ++ exc_str e.

(** The second [try]: write and report. *)
Definition save_block `{Collaborators} (ticker : str) (df : DataFrame) (out_file : Path)
  : M unit :=
  try_except
    (call_to_csv df out_file ;;
     log (line_saved (path_str out_file)))
    (fun e => log (line_error_saving ticker e)).

(** One iteration of the loop; [continue] is the early [ret tt]. *)
Definition process_ticker `{Collaborators} (t : str) : M unit :=
  let ticker := strip t in
  if py_not_str ticker then ret tt
  else
    c <- get_cfg ;;
    log (line_fetching ticker (interval c) (mode c)) ;;
    r <- try_except
           (x <- fetch_block ticker ;; ret (Some x))
           (fun e =>
              log (line_error_fetching ticker e) ;;
              ret None) ;;
    match r with
    | None => ret tt
    | Some (None, _) =>
        log (line_no_data ticker)
    | Some (Some df, file_tag) =>
        if df_empty df then
          log (line_no_data ticker)
        else
          let df' := csv_friendly df in
          c <- get_cfg ;;
          let out_file :=
            truediv (out_dir c) (out_name ticker (interval c) file_tag) in
          save_block ticker df' out_file
    end.

Definition fetch_and_save_csv `{Collaborators} : M unit :=
  c <- get_cfg ;;
  call_mkdir (out_dir c) ;;
  c <- get_cfg ;;
  r <- enforce_yahoo_limits (interval c) (mode c) (period c) ;;
  assign_mode_period (fst r) (snd r) ;;
  c <- get_cfg ;;
  for_each (tickers c) process_ticker.

(** ** Reading a trace *)

Definition is_log `{Collaborators} (ev : Event) : bool :=
  match ev with EvLog _ => true | _ => false end.

Definition is_error_line `{Collaborators} (ev : Event) : bool :=
  match ev with EvLog l => startswith cross_mark l | _ => false end.

Definition is_warning_line `{Collaborators} (ev : Event) : bool :=
  match ev with EvLog l => startswith warning_sign l | _ => false end.

Definition is_fetch `{Collaborators} (ev : Event) : bool :=
  match ev with EvHistory _ _ => true | _ => false end.

Definition is_write `{Collaborators} (ev : Event) : bool :=
  match ev with EvToCsv _ _ => true | _ => false end.

Definition count `{Collaborators} (f : Event -> bool) (tr : list Event) : nat :=
  List.length (filter f tr).

(** The provider call the loop makes for a ticker under configuration [c]. *)
Definition history_call `{Collaborators} (c : DownloadConfig) : HistoryCall :=
  if str_eqb (mode c) (u "range") then
    HistoryRange (start c) (end_ c) (interval c) (include_actions c) (auto_adjust c)
  else if str_eqb (mode c) (u "period") then
    HistoryPeriod (py_or (period c) (u "1mo")) (interval c)
                  (include_actions c) (auto_adjust c)
  else
    HistoryPeriod (u "max") (interval c) (include_actions c) (auto_adjust c).

(** The state in which the loop body is left after a list of tickers. *)
Definition after `{Collaborators} (l : list str) (st : State) : State :=
  snd (for_each l process_ticker st).

(** The file tag the first [try] computes under configuration [c]. *)
Definition file_tag `{Collaborators} (c : DownloadConfig) : str :=
  if str_eqb (mode c) (u "range") then
    fmt_opt (start c) ++ u "_" ++ fmt_opt (end_ c)
  else if str_eqb (mode c) (u "period") then py_or (period c) (u "1mo")
  else u "max".

(** The path handed to [to_csv] for a trimmed ticker under [c]. *)
Definition out_path `{Collaborators} (c : DownloadConfig) (ticker : str) : Path :=
  truediv (out_dir c) (out_name ticker (interval c) (file_tag c)).

(** An entry of the ticker list that survives the trim. *)
Definition nonblank (t : str) : bool := negb (py_not_str (strip t)).

(** What one iteration for [ticker] under [c] may hand to the collaborators. *)
Definition step_event_ok `{Collaborators} (c : DownloadConfig) (ticker : str)
  (ev : Event) : Prop :=
  match ev with
  | EvMkdir _ => False
  | EvLog _ => True
  | EvHistory tk call => tk = ticker /\ call = history_call c
  | EvToCsv _ p => p = out_path c ticker
  end.

(** The events one non-blank ticker adds to the trace, by outcome. *)
Definition events_fetch_error `{Collaborators} (c : DownloadConfig) (ticker : str) (e : PyExc)
  : list Event :=
  [EvLog (line_fetching ticker (interval c) (mode c));
   EvHistory ticker (history_call c);
   EvLog (line_error_fetching ticker e)].

Definition events_no_data `{Collaborators} (c : DownloadConfig) (ticker : str) : list Event :=
  [EvLog (line_fetching ticker (interval c) (mode c));
   EvHistory ticker (history_call c);
   EvLog (line_no_data ticker)].

Definition events_saved `{Collaborators} (c : DownloadConfig) (ticker : str) (df : DataFrame)
  : list Event :=
  [EvLog (line_fetching ticker (interval c) (mode c));
   EvHistory ticker (history_call c);
   EvToCsv (csv_friendly df) (out_path c ticker);
   EvLog (line_saved (path_str (out_path c ticker)))].

Definition events_save_error `{Collaborators} (c : DownloadConfig) (ticker : str) (df : DataFrame)
  (e : PyExc) : list Event :=
  [EvLog (line_fetching ticker (interval c) (mode c));
   EvHistory ticker (history_call c);
   EvToCsv (csv_friendly df) (out_path c ticker);
   EvLog (line_error_saving ticker e)].



(** ** A small concrete world

    Paths are strings joined with a slash, a frame is its number of rows,
    and the world is the set of tickers the provider rejects together with
    a flag for a disk that refuses writes. *)

Record DemoWorld := {
  rejected : list str;
  no_data : list str;
  disk_full : bool
}.

Definition demo : Collaborators := {|
  World := DemoWorld;
  Path := str;
  DataFrame := nat;
  truediv := fun p name => p ++ u "/" ++ name;
  path_str := fun p => p;
  mkdir := fun _ w => (Ok tt, w);
  history := fun ticker _ w =>
    if py_in str_eqb ticker (rejected w) then (Raise (Exc (u "no such ticker")), w)
    else if py_in str_eqb ticker (no_data w) then (Ok None, w)
    else if str_eqb ticker (u "EMPTY") then (Ok (Some 0), w)
    else (Ok (Some 3), w);
  df_empty := fun df => Nat.eqb df 0;
  reset_index_Date := fun df => df;
  has_datetime_Date := fun _ => true;
  tz_localize_None := fun df => Ok df;
  to_csv := fun _ _ w =>
    if disk_full w then (Raise (Exc (u "disk full")), w) else (Ok tt, w)
|}.

Definition demo_world : DemoWorld :=
  {| rejected := [u "BAD"]; no_data := [u "GONE"]; disk_full := false |}.

Definition demo_cfg (tk : list str) (i m : str) (s e p : option str)
  : @DownloadConfig demo :=
  @mkConfig demo tk i false true (u "out") m s e p.

Definition demo_state (tk : list str) (i m : str) (s e p : option str)
  : @State demo :=
  @mkState demo demo_world (demo_cfg tk i m s e p) [].



(** ** The window: widgets, settings and the download action

    The rest of [app.py] is the [HimadaApp] window. Its widgets are the
    record [Ui]; Qt and the Python builtins it leans on are the interface
    [Toolkit]. A line edit, a check box and a date editor hold what they
    are given; a combo box holds an index into its items, [-1] when
    there is no current item. The button and the log view are written by
    [download] alone, and what it does to them is in its trace. *)

(** [s.replace(a, b)] for one-character [a] and [b]. *)
Definition replace_char (a b : codepoint) (s : str) : str :=
  map (fun c => if (c =? a)%N then b else c) s.

(** [s.split(sep)] for a one-character separator. *)
Fixpoint split_on (sep : codepoint) (s : str) : list str :=
  match s with
  | [] => [[]]
  | c :: s' =>
      if (c =? sep)%N then [] :: split_on sep s'
      else match split_on sep s' with
           | h :: r => (c :: h) :: r
           | [] => [[c]]
           end
  end.

(** Line 359 of [download]:
    [[t for t in raw.replace("\n", " ").replace(",", " ").split(" ") if t.strip()]]. *)
Definition parse_tickers (raw : str) : list str :=
  filter nonblank
    (split_on 32%N (replace_char 44%N 32%N (replace_char 10%N 32%N raw))).

(** [sep.join(l)] for a one-character separator. *)
Fixpoint join (sep : codepoint) (l : list str) : str :=
  match l with
  | [] => []
  | [t] => t
  | t :: l' => t ++ sep :: join sep l'
  end.

(** Values kept in the settings store. *)
Inductive Variant (Geometry : Type) : Type :=
| VNone
| VInt (n : Z)
| VStr (s : str)
| VGeom (g : Geometry).
Arguments VNone {Geometry}.
Arguments VInt {Geometry} n.
Arguments VStr {Geometry} s.
Arguments VGeom {Geometry} g.

Class Toolkit `{Collaborators} := {
  QDate : Type;
  (** [d1 >= d2] *)
  date_ge : QDate -> QDate -> bool;
  (** [d.toString("yyyy-MM-dd")] *)
  date_iso : QDate -> str;
  (** [QDate.fromString(s, "yyyy-MM-dd")] *)
  date_fromString : str -> QDate;
  (** [d.isValid()] *)
  date_isValid : QDate -> bool;
  (** [Path(text).expanduser()] *)
  expanduser : str -> Path;
  (** The window's placement and the byte array that stores it. *)
  Window : Type;
  Geometry : Type;
  (** [self.saveGeometry()] *)
  saveGeometry : Window -> Geometry;
  (** [self.restoreGeometry(v)] *)
  restoreGeometry : Variant Geometry -> Window -> Result Window;
  (** [int(v)] for a value that is not already an [int] *)
  int_conv : Variant Geometry -> Result Z;
  (** The [TypeError] of a Qt call handed a value of the wrong type. *)
  type_error : Variant Geometry -> PyExc;
  (** [bool(g)] and [g == s] for a stored byte array. *)
  geom_truthy : Geometry -> bool;
  geom_eq_str : Geometry -> str -> bool
}.

(** *** Combo boxes *)

Record Combo := mkCombo { items : list str; currentIndex : Z }.

Definition currentText (c : Combo) : str :=
  if (currentIndex c <? 0)%Z then []
  else nth (Z.to_nat (currentIndex c)) (items c) [].

(** [c.setCurrentIndex(i)]: an index outside the items leaves no current
    item. *)
Definition setCurrentIndex (i : Z) (c : Combo) : Combo :=
  mkCombo (items c)
          (if (0 <=? i)%Z && (i <? Z.of_nat (List.length (items c)))%Z
           then i else (-1)%Z).

(** The items the constructor gives the three combo boxes. *)
Definition mode_items : list str :=
  [u "Date range (start/end)"; u "Duration (period)";
   u "Maximum available (max)"].

Definition period_items : list str :=
  [u "1d"; u "5d"; u "1mo"; u "3mo"; u "6mo"; u "1y"; u "2y"; u "5y";
   u "10y"; u "ytd"; u "max"].

Definition interval_items : list str :=
  [u "1d"; u "1wk"; u "1mo"; u "1h"; u "30m"; u "15m"; u "5m"; u "2m"; u "1m"].

(** *** The widgets *)

Record Ui `{Toolkit} := mkUi {
  ui_window : Window;
  ui_tickers : str;
  ui_mode : Combo;
  ui_period : Combo;
  ui_start : QDate;
  ui_end : QDate;
  ui_interval : Combo;
  ui_actions : bool;
  ui_auto_adjust : bool;
  ui_out_dir : str;
  ui_start_enabled : bool;
  ui_end_enabled : bool;
  ui_period_enabled : bool
}.
Arguments mkUi {_ _} _ _ _ _ _ _ _ _ _ _ _ _ _.

(** [update_mode_ui] *)
Definition update_mode_ui `{Toolkit} (ui : Ui) : Ui :=
  let mode_text := currentText (ui_mode ui) in
  let is_range := startswith (u "Date range") mode_text in
  let is_period := startswith (u "Duration") mode_text in
  mkUi (ui_window ui) (ui_tickers ui) (ui_mode ui) (ui_period ui)
       (ui_start ui) (ui_end ui) (ui_interval ui) (ui_actions ui)
       (ui_auto_adjust ui) (ui_out_dir ui) is_range is_range is_period.

(** *** [download] *)

Inductive GuiEvent `{Collaborators} :=
| GWarning (title text : str)     (* QMessageBox.warning(self, title, text) *)
| GSetEnabled (b : bool)          (* self.btn_download.setEnabled(b) *)
| GRun (ev : Event).              (* an event of the pipeline run; a logged
                                     line is what log_line appends *)

Definition download `{Toolkit} (ui : Ui) (w : World)
  : Result unit * World * list GuiEvent :=
  let raw := strip (ui_tickers ui) in
  if py_not_str raw then
    (Ok tt, w,
     [GWarning (u "Missing tickers") (u "Please enter at least one ticker.")])
  else
    let tickers := parse_tickers raw in
    match tickers with
    | [] =>
        (Ok tt, w,
         [GWarning (u "Invalid tickers") (u "Could not parse any tickers.")])
    | _ :: _ =>
        let interval := currentText (ui_interval ui) in
        let mode_text := currentText (ui_mode ui) in
        let mode :=
          if startswith (u "Date range") mode_text then u "range"
          else if startswith (u "Duration") mode_text then u "period"
          else u "max" in
        let start_str := date_iso (ui_start ui) in
        let end_str := date_iso (ui_end ui) in
        if str_eqb mode (u "range") && date_ge (ui_start ui) (ui_end ui) then
          (Ok tt, w,
           [GWarning (u "Invalid dates")
                     (u "Start date must be before end date.")])
        else
          let mp :=
            if str_eqb mode (u "period") then
              let p := currentText (ui_period ui) in
              if str_eqb p (u "max") then (u "max", None) else (mode, Some p)
            else (mode, None) in
          let mode := fst mp in
          let period := snd mp in
          let cfg :=
            mkConfig tickers interval (ui_actions ui) (ui_auto_adjust ui)
                     (expanduser (ui_out_dir ui)) mode
                     (if str_eqb mode (u "range") then Some start_str else None)
                     (if str_eqb mode (u "range") then Some end_str else None)
                     period in
          (* setEnabled(False); try: fetch_and_save_csv(...)
             finally: setEnabled(True) *)
          let (r, st) := fetch_and_save_csv (mkState w cfg []) in
          (r, world st, GSetEnabled false :: map GRun (trace st) ++ [GSetEnabled true])
    end.

(** What [download] returns once the run [R] of the pipeline is over. *)
Definition finished `{Collaborators} (R : Result unit * State)
  : Result unit * World * list GuiEvent :=
  (fst R, world (snd R),
   GSetEnabled false :: map GRun (trace (snd R)) ++ [GSetEnabled true]).

(** The tickers the provider was asked for, in the order of the calls. *)
Definition fetched `{Collaborators} (tr : list Event) : list str :=
  flat_map (fun ev => match ev with EvHistory tk _ => [tk] | _ => [] end) tr.

(** The period texts of the long set. *)
Definition long_periods : list str :=
  [u "max"; u "ytd"; u "10y"; u "5y"; u "2y"; u "1y"; u "6mo"; u "3mo"].

(** The mode and period [download] settles on for the texts of the two
    combo boxes. *)
Definition download_mode (mode_text period_text : str) : str * option str :=
  if startswith (u "Date range") mode_text then (u "range", None)
  else if startswith (u "Duration") mode_text then
    if str_eqb period_text (u "max") then (u "max", None)
    else (u "period", Some period_text)
  else (u "max", None).

(** The configuration [download] builds from the widgets. *)
Definition download_config `{Toolkit} (ui : Ui) : DownloadConfig :=
  let mp := download_mode (currentText (ui_mode ui)) (currentText (ui_period ui)) in
  let is_range := str_eqb (fst mp) (u "range") in
  mkConfig (parse_tickers (strip (ui_tickers ui)))
           (currentText (ui_interval ui)) (ui_actions ui) (ui_auto_adjust ui)
           (expanduser (ui_out_dir ui)) (fst mp)
           (if is_range then Some (date_iso (ui_start ui)) else None)
           (if is_range then Some (date_iso (ui_end ui)) else None)
           (snd mp).

(** A character that can only separate tickers: white space or a comma. *)
Definition is_separator (c : codepoint) : bool := is_space c || (c =? 44)%N.

(** A token: not empty and free of separators. *)
Definition clean_token (t : str) : Prop :=
  t <> [] /\ forallb (fun c => negb (is_separator c)) t = true.

(** The widgets pass the checks [download] makes before it runs. *)
Definition accepted `{Toolkit} (ui : Ui) : bool :=
  negb (forallb is_separator (ui_tickers ui))
  && negb (startswith (u "Date range") (currentText (ui_mode ui))
           && date_ge (ui_start ui) (ui_end ui)).



(** *** The settings store *)

Definition Settings `{Toolkit} : Type := list (str * Variant Geometry).

(** [s.setValue(k, v)] *)
Definition setValue `{Toolkit} (k : str) (v : Variant Geometry) (s : Settings)
  : Settings := (k, v) :: s.

(** [s.value(k, d)] *)
Definition value `{Toolkit} (s : Settings) (k : str) (d : Variant Geometry)
  : Variant Geometry :=
  match find (fun kv => str_eqb (fst kv) k) s with
  | Some kv => snd kv
  | None => d
  end.

(** [int(v)] *)
Definition py_int `{Toolkit} (v : Variant Geometry) : Result Z :=
  match v with
  | VInt n => Ok n
  | _ => int_conv v
  end.

(** [bool(v)] *)
Definition truthy `{Toolkit} (v : Variant Geometry) : bool :=
  match v with
  | VNone => false
  | VInt n => negb (n =? 0)%Z
  | VStr s => negb (py_not_str s)
  | VGeom g => geom_truthy g
  end.

(** [v == s] for a string [s] *)
Definition eq_str `{Toolkit} (v : Variant Geometry) (s : str) : bool :=
  match v with
  | VStr x => str_eqb x s
  | VGeom g => geom_eq_str g s
  | _ => false
  end.

(** A Qt call that wants a string. *)
Definition want_str `{Toolkit} (v : Variant Geometry) : Result str :=
  match v with
  | VStr s => Ok s
  | _ => Raise (type_error v)
  end.

Definition bool_str (b : bool) : str := if b then u "true" else u "false".

(** [save_settings] *)
Definition save_settings `{Toolkit} (ui : Ui) (s : Settings) : Settings :=
  let s := setValue (u "window/geometry") (VGeom (saveGeometry (ui_window ui))) s in
  let s := setValue (u "ui/tickers") (VStr (ui_tickers ui)) s in
  let s := setValue (u "ui/out_dir") (VStr (ui_out_dir ui)) s in
  let s := setValue (u "ui/mode_index") (VInt (currentIndex (ui_mode ui))) s in
  let s := setValue (u "ui/period_index") (VInt (currentIndex (ui_period ui))) s in
  let s := setValue (u "ui/interval_index")
                    (VInt (currentIndex (ui_interval ui))) s in
  let s := setValue (u "ui/start_date") (VStr (date_iso (ui_start ui))) s in
  let s := setValue (u "ui/end_date") (VStr (date_iso (ui_end ui))) s in
  let s := setValue (u "ui/include_actions") (VStr (bool_str (ui_actions ui))) s in
  setValue (u "ui/auto_adjust") (VStr (bool_str (ui_auto_adjust ui))) s.

(** Widget setters. *)
Definition set_window `{Toolkit} (x : Window) (ui : Ui) : Ui :=
  mkUi x (ui_tickers ui) (ui_mode ui) (ui_period ui) (ui_start ui) (ui_end ui)
       (ui_interval ui) (ui_actions ui) (ui_auto_adjust ui) (ui_out_dir ui)
       (ui_start_enabled ui) (ui_end_enabled ui) (ui_period_enabled ui).

Definition set_tickers `{Toolkit} (x : str) (ui : Ui) : Ui :=
  mkUi (ui_window ui) x (ui_mode ui) (ui_period ui) (ui_start ui) (ui_end ui)
       (ui_interval ui) (ui_actions ui) (ui_auto_adjust ui) (ui_out_dir ui)
       (ui_start_enabled ui) (ui_end_enabled ui) (ui_period_enabled ui).

Definition set_out_dir `{Toolkit} (x : str) (ui : Ui) : Ui :=
  mkUi (ui_window ui) (ui_tickers ui) (ui_mode ui) (ui_period ui) (ui_start ui)
       (ui_end ui) (ui_interval ui) (ui_actions ui) (ui_auto_adjust ui) x
       (ui_start_enabled ui) (ui_end_enabled ui) (ui_period_enabled ui).

(** [self.mode.setCurrentIndex(i)]; [currentIndexChanged] is connected to
    [update_mode_ui] and fires when the index changes. *)
Definition set_mode_index `{Toolkit} (i : Z) (ui : Ui) : Ui :=
  let c := setCurrentIndex i (ui_mode ui) in
  let ui' :=
    mkUi (ui_window ui) (ui_tickers ui) c (ui_period ui) (ui_start ui)
         (ui_end ui) (ui_interval ui) (ui_actions ui) (ui_auto_adjust ui)
         (ui_out_dir ui) (ui_start_enabled ui) (ui_end_enabled ui)
         (ui_period_enabled ui) in
  if (currentIndex c =? currentIndex (ui_mode ui))%Z then ui'
  else update_mode_ui ui'.

Definition set_period_index `{Toolkit} (i : Z) (ui : Ui) : Ui :=
  mkUi (ui_window ui) (ui_tickers ui) (ui_mode ui)
       (setCurrentIndex i (ui_period ui)) (ui_start ui) (ui_end ui)
       (ui_interval ui) (ui_actions ui) (ui_auto_adjust ui) (ui_out_dir ui)
       (ui_start_enabled ui) (ui_end_enabled ui) (ui_period_enabled ui).

Definition set_interval_index `{Toolkit} (i : Z) (ui : Ui) : Ui :=
  mkUi (ui_window ui) (ui_tickers ui) (ui_mode ui) (ui_period ui) (ui_start ui)
       (ui_end ui) (setCurrentIndex i (ui_interval ui)) (ui_actions ui)
       (ui_auto_adjust ui) (ui_out_dir ui)
       (ui_start_enabled ui) (ui_end_enabled ui) (ui_period_enabled ui).

Definition set_start `{Toolkit} (d : QDate) (ui : Ui) : Ui :=
  mkUi (ui_window ui) (ui_tickers ui) (ui_mode ui) (ui_period ui) d (ui_end ui)
       (ui_interval ui) (ui_actions ui) (ui_auto_adjust ui) (ui_out_dir ui)
       (ui_start_enabled ui) (ui_end_enabled ui) (ui_period_enabled ui).

Definition set_end `{Toolkit} (d : QDate) (ui : Ui) : Ui :=
  mkUi (ui_window ui) (ui_tickers ui) (ui_mode ui) (ui_period ui) (ui_start ui) d
       (ui_interval ui) (ui_actions ui) (ui_auto_adjust ui) (ui_out_dir ui)
       (ui_start_enabled ui) (ui_end_enabled ui) (ui_period_enabled ui).

Definition set_checks `{Toolkit} (a b : bool) (ui : Ui) : Ui :=
  mkUi (ui_window ui) (ui_tickers ui) (ui_mode ui) (ui_period ui) (ui_start ui)
       (ui_end ui) (ui_interval ui) a b (ui_out_dir ui)
       (ui_start_enabled ui) (ui_end_enabled ui) (ui_period_enabled ui).

(** The widget monad of [load_settings]: widgets in, widgets out, and a
    raise keeps what was set before it. *)
Definition G `{Toolkit} (A : Type) : Type := Ui -> Result A * Ui.

Definition gbind `{Toolkit} {A B : Type} (m : G A) (k : A -> G B) : G B :=
  fun ui =>
    match m ui with
    | (Ok a, ui') => k a ui'
    | (Raise e, ui') => (Raise e, ui')
    end.

Definition glift `{Toolkit} {A : Type} (r : Result A) : G A := fun ui => (r, ui).

Definition gmodify `{Toolkit} (f : Ui -> Ui) : G unit := fun ui => (Ok tt, f ui).

Definition gread `{Toolkit} {A : Type} (f : Ui -> A) : G A := fun ui => (Ok (f ui), ui).

(** Lines 286 to 294 and their twin for the end date: a stored date is
    taken only when it is truthy and parses to a valid date. *)
Definition load_date `{Toolkit} (v : Variant Geometry) (set : QDate -> Ui -> Ui)
  : G unit :=
  if truthy v then
    gbind (glift (want_str v)) (fun iso =>
      let d := date_fromString iso in
      if date_isValid d then gmodify (set d) else gmodify (fun ui => ui))
  else gmodify (fun ui => ui).

(** [load_settings] *)
Definition load_settings `{Toolkit} (s : Settings) : G unit :=
  gbind (gmodify (fun ui =>
           let geom := value s (u "window/geometry") VNone in
           match geom with
           | VNone => ui
           | _ => match restoreGeometry geom (ui_window ui) with
                  | Ok x => set_window x ui
                  | Raise _ => ui
                  end
           end)) (fun _ =>
  gbind (gread ui_tickers) (fun cur =>
  gbind (glift (want_str (value s (u "ui/tickers") (VStr cur)))) (fun t =>
  gbind (gmodify (set_tickers t)) (fun _ =>
  gbind (gread ui_out_dir) (fun cur =>
  gbind (glift (want_str (value s (u "ui/out_dir") (VStr cur)))) (fun o =>
  gbind (gmodify (set_out_dir o)) (fun _ =>
  gbind (gread (fun ui => currentIndex (ui_mode ui))) (fun cur =>
  gbind (glift (py_int (value s (u "ui/mode_index") (VInt cur)))) (fun i =>
  gbind (gmodify (set_mode_index i)) (fun _ =>
  gbind (gread (fun ui => currentIndex (ui_period ui))) (fun cur =>
  gbind (glift (py_int (value s (u "ui/period_index") (VInt cur)))) (fun i =>
  gbind (gmodify (set_period_index i)) (fun _ =>
  gbind (gread (fun ui => currentIndex (ui_interval ui))) (fun cur =>
  gbind (glift (py_int (value s (u "ui/interval_index") (VInt cur)))) (fun i =>
  gbind (gmodify (set_interval_index i)) (fun _ =>
  let start_iso := value s (u "ui/start_date") VNone in
  let end_iso := value s (u "ui/end_date") VNone in
  gbind (load_date start_iso set_start) (fun _ =>
  gbind (load_date end_iso set_end) (fun _ =>
  gbind (gmodify (fun ui =>
           set_checks
             (eq_str (value s (u "ui/include_actions") (VStr (u "true"))) (u "true"))
             (ui_auto_adjust ui) ui)) (fun _ =>
  gbind (gmodify (fun ui =>
           set_checks
             (ui_actions ui)
             (eq_str (value s (u "ui/auto_adjust") (VStr (u "false"))) (u "true"))
             ui)) (fun _ =>
  gmodify update_mode_ui)))))))))))))))))))).

(** The keys [save_settings] writes and [load_settings] reads. *)
Definition setting_keys : list str :=
  [u "window/geometry"; u "ui/tickers"; u "ui/out_dir"; u "ui/mode_index";
   u "ui/period_index"; u "ui/interval_index"; u "ui/start_date";
   u "ui/end_date"; u "ui/include_actions"; u "ui/auto_adjust"].

(** The store has no entry under [k]. *)
Definition absent `{Toolkit} (s : Settings) (k : str) : Prop :=
  find (fun kv => str_eqb (fst kv) k) s = None.

(** The index of a combo box is [-1] or points at one of its items. *)
Definition combo_ok (c : Combo) : Prop :=
  (-1 <= currentIndex c < Z.of_nat (List.length (items c)))%Z.

(** The date an editor holds after [load_settings] read the ISO text of
    [saved]: the parsed date when the text is not empty and parses to a
    valid date, the date it held otherwise. *)
Definition restored_date `{Toolkit} (saved held : QDate) : QDate :=
  if negb (py_not_str (date_iso saved))
     && date_isValid (date_fromString (date_iso saved))
  then date_fromString (date_iso saved) else held.

(** The placement of the window after [load_settings] read the bytes of
    [saved]. *)
Definition restored_window `{Toolkit} (saved held : Window) : Window :=
  match restoreGeometry (VGeom (saveGeometry saved)) held with
  | Ok x => x
  | Raise _ => held
  end.

(** *** A concrete toolkit

    A date is its ISO text, compared as text; the window placement is a
    number. *)

Fixpoint str_leb (a b : str) : bool :=
  match a, b with
  | [], _ => true
  | _ :: _, [] => false
  | x :: a', y :: b' =>
      if (x <? y)%N then true
      else if (y <? x)%N then false
      else str_leb a' b'
  end.

Definition demo_kit : @Toolkit demo := {|
  QDate := str;
  date_ge := fun a b => str_leb b a;
  date_iso := fun d => d;
  date_fromString := fun s => s;
  date_isValid := fun d => Nat.eqb (List.length d) 10;
  expanduser := fun t : str => (t : @Path demo);
  Window := nat;
  Geometry := nat;
  saveGeometry := fun x => x;
  restoreGeometry := fun v _ =>
    match v with
    | VGeom g => Ok g
    | _ => Raise (Exc (u "TypeError"))
    end;
  int_conv := fun _ => Raise (Exc (u "invalid literal for int()"));
  type_error := fun _ => Exc (u "TypeError");
  geom_truthy := fun g => negb (Nat.eqb g 0);
  geom_eq_str := fun _ _ => false
|}.

Definition demo_ui (text : str) (mode_ix period_ix interval_ix : Z)
  : @Ui demo demo_kit :=
  @mkUi demo demo_kit 7 text (mkCombo mode_items mode_ix)
        (mkCombo period_items period_ix) (u "2023-01-01") (u "2024-01-01")
        (mkCombo interval_items interval_ix) false true (u "out")
        false false false.

(** The concrete world with an output folder that cannot be made. *)
Definition locked : Collaborators := {|
  World := DemoWorld;
  Path := str;
  DataFrame := nat;
  truediv := fun p name => p ++ u "/" ++ name;
  path_str := fun p => p;
  mkdir := fun _ w => (Raise (Exc (u "Permission denied")), w);
  history := fun _ _ w => (Ok (Some 3), w);
  df_empty := fun df => Nat.eqb df 0;
  reset_index_Date := fun df => df;
  has_datetime_Date := fun _ => true;
  tz_localize_None := fun df => Ok df;
  to_csv := fun _ _ w => (Ok tt, w)
|}.


(** * Properties *)

Unset Implicit Arguments.

(** ** Strings *)

Lemma str_eqb_eq (a b : str) : str_eqb a b = true <-> a = b.
Proof.
  revert b; induction a as [|x a IH]; intros [|y b]; simpl;
    try (split; [discriminate | discriminate]); try tauto.
  rewrite andb_true_iff, N.eqb_eq, IH. split.
  - intros [-> ->]; reflexivity.
  - intros E; injection E; auto.
Qed.

Lemma str_eqb_refl (a : str) : str_eqb a a = true.
Proof. apply str_eqb_eq; reflexivity. Qed.

Lemma str_eqb_neq (a b : str) : str_eqb a b = false <-> a <> b.
Proof.
  rewrite <- str_eqb_eq. destruct (str_eqb a b); split; congruence.
Qed.

Lemma opt_str_eqb_eq (a b : option str) : opt_str_eqb a b = true <-> a = b.
Proof.
  destruct a as [x|], b as [y|]; simpl; try (split; congruence).
  rewrite str_eqb_eq. split; congruence.
Qed.

Lemma py_in_str (x : str) (s : list str) : py_in str_eqb x s = true <-> In x s.
Proof.
  unfold py_in. rewrite existsb_exists. split.
  - intros [y [Hy E]]. apply str_eqb_eq in E. subst; assumption.
  - intros Hx. exists x. split; [assumption | apply str_eqb_refl].
Qed.

Lemma py_in_opt_str (x : option str) (s : list (option str)) :
  py_in opt_str_eqb x s = true <-> In x s.
Proof.
  unfold py_in. rewrite existsb_exists. split.
  - intros [y [Hy E]]. apply opt_str_eqb_eq in E. subst; assumption.
  - intros Hx. exists x. split; [assumption | apply opt_str_eqb_eq; reflexivity].
Qed.

Lemma py_not_str_nil (s : str) : py_not_str s = true <-> s = [].
Proof. destruct s; simpl; split; congruence. Qed.

Lemma lstrip_blank (s : str) : forallb is_space s = true -> lstrip s = [].
Proof.
  induction s as [|c s IH]; simpl; [reflexivity|].
  rewrite andb_true_iff. intros [-> Hs]. auto.
Qed.

(** A string of white space only is empty after the trim. *)
Lemma strip_blank (s : str) : forallb is_space s = true -> strip s = [].
Proof.
  intros Hs. unfold strip, rstrip. rewrite (lstrip_blank s Hs). reflexivity.
Qed.

(** ** The Limit Enforcer *)

Section Enforcer.
Context `{Collaborators}.

Lemma enforce_not_intraday (i m : str) (p : option str) (st : State) :
  py_in str_eqb i intraday_intervals = false ->
  enforce_yahoo_limits i m p st = (Ok (m, p), st).
Proof.
  intros Hi. unfold enforce_yahoo_limits. rewrite Hi. reflexivity.
Qed.

Lemma enforce_no_clamp (i m : str) (p : option str) (st : State) :
  py_in str_eqb m [u "max"; u "period"] && py_in opt_str_eqb p longish = false ->
  enforce_yahoo_limits i m p st = (Ok (m, p), st).
Proof.
  intros Hc. unfold enforce_yahoo_limits. rewrite Hc.
  destruct (negb (py_in str_eqb i intraday_intervals)); reflexivity.
Qed.

Lemma warning_line_clamp_7d : startswith warning_sign line_clamp_7d = true.
Proof. reflexivity. Qed.

Lemma warning_line_clamp_60d : startswith warning_sign line_clamp_60d = true.
Proof. reflexivity. Qed.

(** C1. With an intraday interval, mode [period] or [max] and a period of
    the long set, the enforcer returns [("period", "7d")] when the interval
    is [1m] and [("period", "60d")] otherwise, and in both cases hands
    exactly one line, a warning, to the logging callback. *)
Theorem enforce_clamps_long_periods (i m : str) (p : option str) (st : State) :
  In i intraday_intervals ->
  m = u "period" \/ m = u "max" ->
  In p longish ->
  exists line,
    enforce_yahoo_limits i m p st
      = (Ok (u "period", Some (if str_eqb i (u "1m") then u "7d" else u "60d")),
         mkState (world st) (cfg st) (trace st ++ [EvLog line]))
    /\ startswith warning_sign line = true
    /\ (i = u "1m" ->
        enforce_yahoo_limits i m p st
          = (Ok (u "period", Some (u "7d")), emit (EvLog line_clamp_7d) st))
    /\ (i <> u "1m" ->
        enforce_yahoo_limits i m p st
          = (Ok (u "period", Some (u "60d")), emit (EvLog line_clamp_60d) st)).
Proof.
  intros Hi Hm Hp.
  assert (Em : py_in str_eqb m [u "max"; u "period"] = true).
  { apply py_in_str. destruct Hm as [-> | ->]; simpl; auto. }
  apply py_in_str in Hi. apply py_in_opt_str in Hp.
  unfold enforce_yahoo_limits. rewrite Hi, Em, Hp. simpl negb. cbv iota.
  simpl andb. cbv iota.
  destruct (str_eqb i (u "1m")) eqn:E.
  - exists line_clamp_7d. split; [reflexivity|]. split; [reflexivity|].
    split; [reflexivity|]. intros N. apply str_eqb_eq in E. contradiction.
  - exists line_clamp_60d. split; [reflexivity|]. split; [reflexivity|].
    split; [|reflexivity]. intros ->. rewrite str_eqb_refl in E. discriminate.
Qed.

(** C2. With an interval outside the intraday set the enforcer returns the
    requested mode and period unchanged, whatever they are, and logs
    nothing: the state, trace included, is the one it started from. *)
Theorem enforce_identity_non_intraday (i m : str) (p : option str) (st : State) :
  ~ In i intraday_intervals ->
  enforce_yahoo_limits i m p st = (Ok (m, p), st).
Proof.
  intros Hi. apply enforce_not_intraday.
  destruct (py_in str_eqb i intraday_intervals) eqn:E; [|reflexivity].
  apply py_in_str in E. contradiction.
Qed.

(** C3. With an intraday interval and mode [range] the enforcer returns
    the requested mode and period unchanged, whatever the period, and
    logs nothing. *)
Theorem enforce_identity_range (i : str) (p : option str) (st : State) :
  In i intraday_intervals ->
  enforce_yahoo_limits i (u "range") p st = (Ok (u "range", p), st).
Proof.
  intros _. apply enforce_no_clamp. reflexivity.
Qed.

(** C10. The enforcer is idempotent: it always returns a pair, and run
    again on that pair with the same interval, from any state, it returns
    the pair unchanged and logs nothing. The clamped periods [7d] and
    [60d] are not in the long set. *)
Theorem enforce_idempotent (i m : str) (p : option str) (st : State) :
  exists m' p',
    fst (enforce_yahoo_limits i m p st) = Ok (m', p')
    /\ (forall st2, enforce_yahoo_limits i m' p' st2 = (Ok (m', p'), st2))
    /\ ~ In (Some (u "7d")) longish /\ ~ In (Some (u "60d")) longish.
Proof.
  assert (N7 : ~ In (Some (u "7d")) longish).
  { intros I. apply py_in_opt_str in I. discriminate. }
  assert (N60 : ~ In (Some (u "60d")) longish).
  { intros I. apply py_in_opt_str in I. discriminate. }
  destruct (py_in str_eqb i intraday_intervals) eqn:Hi.
  - destruct (py_in str_eqb m [u "max"; u "period"]
              && py_in opt_str_eqb p longish) eqn:Hc.
    + unfold enforce_yahoo_limits at 1. rewrite Hi, Hc. simpl negb. cbv iota.
      destruct (str_eqb i (u "1m")).
      * exists (u "period"), (Some (u "7d")). split; [reflexivity|].
        split; [|auto]. intros st2. apply enforce_no_clamp. reflexivity.
      * exists (u "period"), (Some (u "60d")). split; [reflexivity|].
        split; [|auto]. intros st2. apply enforce_no_clamp. reflexivity.
    + exists m, p. rewrite enforce_no_clamp by assumption.
      split; [reflexivity|]. split; [|auto].
      intros st2. apply enforce_no_clamp. assumption.
  - exists m, p. rewrite enforce_not_intraday by assumption.
    split; [reflexivity|]. split; [|auto].
    intros st2. apply enforce_not_intraday. assumption.
Qed.

End Enforcer.

(** ** One iteration of the loop *)

Section Pipeline.
Context `{Collaborators}.

(** The first [try] body makes exactly the call [history_call] describes
    and, when the provider returns, pairs the frame with [file_tag]. *)
Lemma fetch_block_run (ticker : str) (st : State) :
  fetch_block ticker st =
    let c := cfg st in
    let tr := trace st ++ [EvHistory ticker (history_call c)] in
    match history ticker (history_call c) (world st) with
    | (Ok df, w) => (Ok (df, file_tag c), mkState w c tr)
    | (Raise e, w) => (Raise e, mkState w c tr)
    end.
Proof.
  unfold fetch_block, history_call, file_tag, bind, get_cfg, call_history, ret.
  cbn zeta.
  destruct (str_eqb (mode (cfg st)) (u "range"));
    [| destruct (str_eqb (mode (cfg st)) (u "period"))];
    unfold emit, set_world; cbn [world cfg trace];
    match goal with
    | |- context [history ?a ?b ?c] => destruct (history a b c) as [[df|e] w]
    end; reflexivity.
Qed.

Lemma save_block_run (ticker : str) (df : DataFrame) (p : Path) (st : State) :
  save_block ticker df p st =
    match to_csv df p (world st) with
    | (Ok _, w) =>
        (Ok tt, mkState w (cfg st)
                  (trace st ++ [EvToCsv df p; EvLog (line_saved (path_str p))]))
    | (Raise e, w) =>
        (Ok tt, mkState w (cfg st)
                  (trace st ++ [EvToCsv df p; EvLog (line_error_saving ticker e)]))
    end.
Proof.
  unfold save_block, try_except, bind, call_to_csv, log, emit, set_world.
  cbn [world cfg trace].
  destruct (to_csv df p (world st)) as [[[]|e] w];
    cbn [world cfg trace]; rewrite <- app_assoc; reflexivity.
Qed.

Lemma step_blank (t : str) (st : State) :
  strip t = [] -> process_ticker t st = (Ok tt, st).
Proof.
  intros E. unfold process_ticker. rewrite E. reflexivity.
Qed.

Ltac step_start Hne :=
  unfold process_ticker;
  match goal with
  | |- context [py_not_str ?s] =>
      destruct (py_not_str s) eqn:?Hb;
      [apply py_not_str_nil in Hb; contradiction|]
  end;
  unfold bind at 1, get_cfg at 1; unfold bind at 1, log at 1;
  unfold bind at 1, try_except at 1; unfold bind at 1;
  rewrite fetch_block_run; unfold emit; cbn [world cfg trace]; cbn zeta.

Lemma step_fetch_error (t : str) (st : State) (e : PyExc) (w : World) :
  strip t <> [] ->
  history (strip t) (history_call (cfg st)) (world st) = (Raise e, w) ->
  process_ticker t st
    = (Ok tt, mkState w (cfg st)
                (trace st ++ events_fetch_error (cfg st) (strip t) e)).
Proof.
  intros Hne Hh. step_start Hne. rewrite Hh.
  unfold bind, log, ret, events_fetch_error, emit. cbn [world cfg trace].
  rewrite <- !app_assoc. reflexivity.
Qed.

Lemma step_none (t : str) (st : State) (w : World) :
  strip t <> [] ->
  history (strip t) (history_call (cfg st)) (world st) = (Ok None, w) ->
  process_ticker t st
    = (Ok tt, mkState w (cfg st) (trace st ++ events_no_data (cfg st) (strip t))).
Proof.
  intros Hne Hh. step_start Hne. rewrite Hh.
  unfold bind, log, ret, events_no_data, emit. cbn [world cfg trace].
  rewrite <- !app_assoc. reflexivity.
Qed.

Lemma step_empty (t : str) (st : State) (df : DataFrame) (w : World) :
  strip t <> [] ->
  history (strip t) (history_call (cfg st)) (world st) = (Ok (Some df), w) ->
  df_empty df = true ->
  process_ticker t st
    = (Ok tt, mkState w (cfg st) (trace st ++ events_no_data (cfg st) (strip t))).
Proof.
  intros Hne Hh He. step_start Hne. rewrite Hh.
  unfold ret at 1. cbn iota. rewrite He.
  unfold log, events_no_data, emit. cbn [world cfg trace].
  rewrite <- !app_assoc. reflexivity.
Qed.

Lemma step_saved (t : str) (st : State) (df : DataFrame) (w w' : World) :
  strip t <> [] ->
  history (strip t) (history_call (cfg st)) (world st) = (Ok (Some df), w) ->
  df_empty df = false ->
  to_csv (csv_friendly df) (out_path (cfg st) (strip t)) w = (Ok tt, w') ->
  process_ticker t st
    = (Ok tt, mkState w' (cfg st)
                (trace st ++ events_saved (cfg st) (strip t) df)).
Proof.
  intros Hne Hh He Hw. step_start Hne. rewrite Hh.
  unfold ret at 1. cbn iota. rewrite He.
  unfold bind, get_cfg. rewrite save_block_run. cbn [world cfg trace].
  fold (out_path (cfg st) (strip t)). rewrite Hw.
  unfold events_saved. rewrite <- !app_assoc. reflexivity.
Qed.

Lemma step_save_error (t : str) (st : State) (df : DataFrame) (w w' : World)
  (e : PyExc) :
  strip t <> [] ->
  history (strip t) (history_call (cfg st)) (world st) = (Ok (Some df), w) ->
  df_empty df = false ->
  to_csv (csv_friendly df) (out_path (cfg st) (strip t)) w = (Raise e, w') ->
  process_ticker t st
    = (Ok tt, mkState w' (cfg st)
                (trace st ++ events_save_error (cfg st) (strip t) df e)).
Proof.
  intros Hne Hh He Hw. step_start Hne. rewrite Hh.
  unfold ret at 1. cbn iota. rewrite He.
  unfold bind, get_cfg. rewrite save_block_run. cbn [world cfg trace].
  fold (out_path (cfg st) (strip t)). rewrite Hw.
  unfold events_save_error. rewrite <- !app_assoc. reflexivity.
Qed.

(** ** Reading traces *)

Lemma count_app (f : Event -> bool) (a b : list Event) :
  count f (a ++ b) = count f a + count f b.
Proof. unfold count. rewrite filter_app, length_app. reflexivity. Qed.

Lemma fetching_not_error (ticker i m : str) :
  startswith cross_mark (line_fetching ticker i m) = false.
Proof. reflexivity. Qed.

Lemma fetching_not_warning (ticker i m : str) :
  startswith warning_sign (line_fetching ticker i m) = false.
Proof. reflexivity. Qed.

Lemma no_data_is_warning (ticker : str) :
  startswith warning_sign (line_no_data ticker) = true.
Proof. reflexivity. Qed.

Lemma no_data_not_error (ticker : str) :
  startswith cross_mark (line_no_data ticker) = false.
Proof. reflexivity. Qed.

Lemma error_fetching_is_error (ticker : str) (e : PyExc) :
  startswith cross_mark (line_error_fetching ticker e) = true.
Proof. reflexivity. Qed.

Lemma error_saving_is_error (ticker : str) (e : PyExc) :
  startswith cross_mark (line_error_saving ticker e) = true.
Proof. reflexivity. Qed.

(** ** The loop never raises *)

(** Whatever the collaborators do, one iteration ends normally, leaves
    the configuration alone, calls the provider once for a non-blank
    entry and not at all for a blank one, and writes only to the path
    computed from the configuration. *)
Lemma step_shape (t : str) (st : State) :
  exists w evs,
    process_ticker t st = (Ok tt, mkState w (cfg st) (trace st ++ evs))
    /\ count is_fetch evs = (if nonblank t then 1 else 0)
    /\ Forall (step_event_ok (cfg st) (strip t)) evs.
Proof.
  unfold nonblank. destruct (py_not_str (strip t)) eqn:Hb.
  - apply py_not_str_nil in Hb. exists (world st), [].
    rewrite step_blank by assumption. rewrite app_nil_r.
    destruct st; simpl. auto.
  - assert (Hne : strip t <> []).
    { intros E. apply py_not_str_nil in E. congruence. }
    destruct (history (strip t) (history_call (cfg st)) (world st))
      as [[[df|]|e] w] eqn:Hh.
    + destruct (df_empty df) eqn:He.
      * exists w, (events_no_data (cfg st) (strip t)).
        rewrite (step_empty _ _ _ _ Hne Hh He).
        repeat split; repeat constructor.
      * destruct (to_csv (csv_friendly df) (out_path (cfg st) (strip t)) w)
          as [[[]|e] w'] eqn:Hw.
        -- exists w', (events_saved (cfg st) (strip t) df).
           rewrite (step_saved _ _ _ _ _ Hne Hh He Hw).
           repeat split; repeat constructor.
        -- exists w', (events_save_error (cfg st) (strip t) df e).
           rewrite (step_save_error _ _ _ _ _ _ Hne Hh He Hw).
           repeat split; repeat constructor.
    + exists w, (events_no_data (cfg st) (strip t)).
      rewrite (step_none _ _ _ Hne Hh). repeat split; repeat constructor.
    + exists w, (events_fetch_error (cfg st) (strip t) e).
      rewrite (step_fetch_error _ _ _ _ Hne Hh). repeat split; repeat constructor.
Qed.

Lemma for_each_cons (t : str) (l : list str) (st : State) :
  for_each (t :: l) process_ticker st
    = for_each l process_ticker (snd (process_ticker t st)).
Proof.
  destruct (step_shape t st) as (w & evs & E & _).
  simpl. unfold bind. rewrite E. reflexivity.
Qed.

Lemma for_each_app (l1 l2 : list str) (st : State) :
  for_each (l1 ++ l2) process_ticker st
    = for_each l2 process_ticker (after l1 st).
Proof.
  revert st. induction l1 as [|t l1 IH]; intros st.
  - reflexivity.
  - rewrite <- app_comm_cons. rewrite for_each_cons, IH.
    unfold after. rewrite for_each_cons. reflexivity.
Qed.

(** The whole loop ends normally, with the configuration it started
    from; it calls the provider once per non-blank entry. *)
Lemma loop_shape (l : list str) (st : State) :
  exists w evs,
    for_each l process_ticker st = (Ok tt, mkState w (cfg st) (trace st ++ evs))
    /\ count is_fetch evs = List.length (filter nonblank l)
    /\ Forall (fun ev => exists t, In t l /\ step_event_ok (cfg st) (strip t) ev)
              evs.
Proof.
  revert st. induction l as [|t l IH]; intros st.
  - exists (world st), []. rewrite app_nil_r. destruct st; simpl. auto.
  - destruct (step_shape t st) as (w1 & ev1 & E1 & C1 & F1).
    rewrite for_each_cons, E1. cbn [snd].
    destruct (IH (mkState w1 (cfg st) (trace st ++ ev1)))
      as (w2 & ev2 & E2 & C2 & F2).
    cbn [cfg trace] in E2, F2.
    exists w2, (ev1 ++ ev2). rewrite E2, app_assoc. split; [reflexivity|]. split.
    + rewrite count_app, C1, C2. simpl filter.
      destruct (nonblank t); reflexivity.
    + apply Forall_app. split.
      * eapply Forall_impl; [|exact F1]. intros ev Hev. exists t. simpl; auto.
      * eapply Forall_impl; [|exact F2]. intros ev (t' & Ht' & Hev).
        exists t'. simpl; auto.
Qed.

Lemma after_cfg (l : list str) (st : State) : cfg (after l st) = cfg st.
Proof.
  unfold after. destruct (loop_shape l st) as (w & evs & E & _).
  rewrite E. reflexivity.
Qed.

End Pipeline.

(** ** White space *)

Lemma lstrip_nil (s : str) : lstrip s = [] -> forallb is_space s = true.
Proof.
  induction s as [|c s IH]; simpl; [reflexivity|].
  destruct (is_space c); [exact IH | discriminate].
Qed.

Lemma lstrip_split (s : str) :
  exists pre, s = pre ++ lstrip s /\ forallb is_space pre = true.
Proof.
  induction s as [|c s (pre & E & Hp)]; simpl.
  - exists []. auto.
  - destruct (is_space c) eqn:Hc.
    + exists (c :: pre). simpl. rewrite Hc, Hp. split; [congruence | reflexivity].
    + exists []. auto.
Qed.

Lemma forallb_rev (f : codepoint -> bool) (s : str) :
  forallb f (rev s) = forallb f s.
Proof.
  induction s as [|c s IH]; simpl; [reflexivity|].
  rewrite forallb_app, IH. simpl. rewrite andb_true_r. apply andb_comm.
Qed.

(** An entry is dropped by the trim exactly when it is made of white
    space only. *)
Lemma strip_nil_iff (s : str) : strip s = [] <-> forallb is_space s = true.
Proof.
  split; [|apply strip_blank].
  unfold strip, rstrip. intros E.
  assert (E' : lstrip (rev (lstrip s)) = []).
  { destruct (lstrip (rev (lstrip s))) as [|c r]; [reflexivity|].
    simpl in E. destruct (rev r); discriminate. }
  apply lstrip_nil in E'. rewrite forallb_rev in E'.
  destruct (lstrip_split s) as (pre & Es & Hp).
  rewrite Es, forallb_app, Hp, E'. reflexivity.
Qed.

(** ** The loop and its failures *)

Section Claims.
Context `{Collaborators}.


(** C5. When the provider returns [None] or a frame with no rows for a
    non-blank ticker, the iteration logs the fetch line and exactly one
    warning line, which names the ticker, attempts no write, logs no
    error, and the loop goes on with the next ticker. *)
Theorem no_data_warns_and_continues
  (pre post : list str) (t : str) (st0 : State)
  (r : option DataFrame) (w : World) :
  let st := after pre st0 in
  let ticker := strip t in
  let c := cfg st in
  ticker <> [] ->
  history ticker (history_call c) (world st) = (Ok r, w) ->
  r = None \/ (exists df, r = Some df /\ df_empty df = true) ->
  let evs :=
    [EvLog (line_fetching ticker (interval c) (mode c));
     EvHistory ticker (history_call c);
     EvLog (warning_sign ++ u " No data returned for " ++ ticker ++ u ".")] in
  process_ticker t st = (Ok tt, mkState w c (trace st ++ evs))
  /\ count is_warning_line evs = 1
  /\ count is_error_line evs = 0
  /\ count is_write evs = 0
  /\ for_each (pre ++ t :: post) process_ticker st0
     = for_each post process_ticker (mkState w c (trace st ++ evs)).
Proof.
  intros st ticker c Hne Hh Hr evs.
  assert (E : process_ticker t st = (Ok tt, mkState w c (trace st ++ evs))).
  { destruct Hr as [-> | (df & -> & He)].
    - exact (step_none t st w Hne Hh).
    - exact (step_empty t st df w Hne Hh He). }
  split; [exact E|]. repeat (split; [reflexivity|]).
  rewrite for_each_app, for_each_cons. fold st. rewrite E. reflexivity.
Qed.

(** C7. An entry that is empty after the trim, that is an entry of white
    space only, is skipped entirely: the iteration leaves the state as it
    found it (no provider call, no write, no log line), and the run over
    the list is the run over the list without that entry. *)
Theorem blank_ticker_skipped (pre post : list str) (t : str) (st0 : State) :
  strip t = [] ->
  forallb is_space t = true
  /\ (forall st, process_ticker t st = (Ok tt, st))
  /\ for_each (pre ++ t :: post) process_ticker st0
     = for_each (pre ++ post) process_ticker st0.
Proof.
  intros E. split; [apply strip_nil_iff; exact E|].
  split; [intros st; apply step_blank; exact E|].
  rewrite !for_each_app, for_each_cons, (step_blank t _ E). reflexivity.
Qed.

(** ** The iteration in detail *)


(** C6. For a non-blank ticker whose fetch returns a frame with rows, the
    one write of the iteration goes to [out_dir / name], where [name] is
    the trimmed ticker with every slash replaced by an underscore, then
    [_], the interval, [_], the tag and [.csv]. Under the mode the loop
    runs with, the tag is [<start>_<end>] in range mode, the period
    string in period mode and [max] in max mode. [BBCA.JK] with interval
    [1d] in max mode gives [BBCA.JK_1d_max.csv]; [BRK/B] gives a name
    that starts with [BRK_B_]. *)
Theorem output_file_name (t : str) (st : State) (df : DataFrame) (w : World) :
  let ticker := strip t in
  let c := cfg st in
  ticker <> [] ->
  history ticker (history_call c) (world st) = (Ok (Some df), w) ->
  df_empty df = false ->
  exists tag w' line,
    let name :=
      replace_slash ticker ++ u "_" ++ interval c ++ u "_" ++ tag ++ u ".csv" in
    process_ticker t st
      = (Ok tt,
         mkState w' c
           (trace st
            ++ [EvLog (line_fetching ticker (interval c) (mode c));
                EvHistory ticker (history_call c);
                EvToCsv (csv_friendly df) (truediv (out_dir c) name);
                EvLog line]))
    /\ (mode c = u "range" ->
        tag = fmt_opt (start c) ++ u "_" ++ fmt_opt (end_ c)
        /\ forall s e, start c = Some s -> end_ c = Some e ->
                       tag = s ++ u "_" ++ e)
    /\ (mode c = u "period" ->
        forall p, period c = Some p -> p <> [] -> tag = p)
    /\ (mode c = u "max" -> tag = u "max")
    /\ (t = u "BBCA.JK" -> interval c = u "1d" -> mode c = u "max" ->
        name = u "BBCA.JK_1d_max.csv")
    /\ (t = u "BRK/B" -> startswith (u "BRK_B_") name = true).
Proof.
  intros ticker c Hne Hh He.
  assert (Hmax : mode c = u "max" -> file_tag c = u "max").
  { intros Em. unfold file_tag. rewrite Em. reflexivity. }
  assert (E : exists w' line,
             process_ticker t st
             = (Ok tt,
                mkState w' c
                  (trace st
                   ++ [EvLog (line_fetching ticker (interval c) (mode c));
                       EvHistory ticker (history_call c);
                       EvToCsv (csv_friendly df) (out_path c ticker);
                       EvLog line]))).
  { destruct (to_csv (csv_friendly df) (out_path c ticker) w)
      as [[[]|e] w'] eqn:Hw.
    - exists w', (line_saved (path_str (out_path c ticker))).
      exact (step_saved t st df w w' Hne Hh He Hw).
    - exists w', (line_error_saving ticker e).
      exact (step_save_error t st df w w' e Hne Hh He Hw). }
  destruct E as (w' & line & E).
  exists (file_tag c), w', line. cbv zeta.
  split; [exact E|]. split.
  { intros Em. unfold file_tag. rewrite Em. cbn [str_eqb u]. split.
    - reflexivity.
    - intros s e -> ->. reflexivity. }
  split.
  { intros Em p Ep Np. unfold file_tag. rewrite Em, Ep.
    destruct p; [contradiction | reflexivity]. }
  split; [exact Hmax|]. split.
  - intros Et Ei Em. rewrite (Hmax Em), Ei. unfold ticker. rewrite Et.
    reflexivity.
  - intros Et. unfold ticker. rewrite Et. reflexivity.
Qed.

(** ** The whole run *)

(** The enforcer always returns; it touches neither the world nor the
    configuration object and adds log lines only. *)
Lemma enforce_shape (i m : str) (p : option str) (st : State) :
  exists m' p' logs,
    enforce_yahoo_limits i m p st
      = (Ok (m', p'), mkState (world st) (cfg st) (trace st ++ logs))
    /\ count is_fetch logs = 0.
Proof.
  assert (Hid : forall s : State,
            s = mkState (world s) (cfg s) (trace s ++ [])).
  { intros [w c tr]. simpl. rewrite app_nil_r. reflexivity. }
  unfold enforce_yahoo_limits.
  destruct (negb (py_in str_eqb i intraday_intervals)).
  - exists m, p, []. split; [unfold ret; rewrite <- Hid|]; reflexivity.
  - destruct (py_in str_eqb m [u "max"; u "period"]
              && py_in opt_str_eqb p longish).
    + destruct (str_eqb i (u "1m")).
      * exists (u "period"), (Some (u "7d")), [EvLog line_clamp_7d].
        split; reflexivity.
      * exists (u "period"), (Some (u "60d")), [EvLog line_clamp_60d].
        split; reflexivity.
    + exists m, p, []. split; [unfold ret; rewrite <- Hid|]; reflexivity.
Qed.

Lemma run_mkdir_raises (st : State) (e : PyExc) (w : World) :
  mkdir (out_dir (cfg st)) (world st) = (Raise e, w) ->
  fetch_and_save_csv st
    = (Raise e, mkState w (cfg st) (trace st ++ [EvMkdir (out_dir (cfg st))])).
Proof.
  intros Hm. unfold fetch_and_save_csv.
  unfold bind at 1, get_cfg at 1. unfold bind at 1, call_mkdir, emit, set_world.
  cbn [world cfg trace]. rewrite Hm. reflexivity.
Qed.

Lemma run_mkdir_ok (st : State) (w : World) (m : str) (p : option str)
  (logs : list Event) :
  let c := cfg st in
  let tr := trace st ++ [EvMkdir (out_dir c)] in
  mkdir (out_dir c) (world st) = (Ok tt, w) ->
  enforce_yahoo_limits (interval c) (mode c) (period c) (mkState w c tr)
    = (Ok (m, p), mkState w c (tr ++ logs)) ->
  fetch_and_save_csv st
    = for_each (tickers c) process_ticker
        (mkState w (with_mode_period c m p) (tr ++ logs)).
Proof.
  intros c tr Hm He. unfold fetch_and_save_csv.
  unfold bind at 1, get_cfg at 1. unfold bind at 1, call_mkdir, emit, set_world.
  cbn [world cfg trace]. fold c. rewrite Hm.
  unfold bind at 1, get_cfg at 1. cbn [cfg]. unfold bind at 1.
  fold tr. rewrite He.
  unfold bind, assign_mode_period, get_cfg. cbn [fst snd world cfg trace].
  reflexivity.
Qed.

(** C8. Of the configuration object a run changes at most [mode] and
    [period]: the other seven fields are the same after the run as
    before. When [mkdir] raises nothing is assigned. Otherwise the one
    assignment stores the pair the enforcer returned, before any provider
    call, and the loop that follows runs from that state and never
    changes the object again. *)
Theorem run_frame (st : State) :
  let c := cfg st in
  let c' := cfg (snd (fetch_and_save_csv st)) in
  (tickers c' = tickers c /\ interval c' = interval c
   /\ include_actions c' = include_actions c /\ auto_adjust c' = auto_adjust c
   /\ out_dir c' = out_dir c /\ start c' = start c /\ end_ c' = end_ c)
  /\ (forall e w, mkdir (out_dir c) (world st) = (Raise e, w) -> c' = c)
  /\ (forall w, mkdir (out_dir c) (world st) = (Ok tt, w) ->
      exists m p logs,
        let tr := trace st ++ [EvMkdir (out_dir c)] in
        let c1 := with_mode_period c m p in
        let st1 := mkState w c1 (tr ++ logs) in
        enforce_yahoo_limits (interval c) (mode c) (period c) (mkState w c tr)
          = (Ok (m, p), mkState w c (tr ++ logs))
        /\ count is_fetch (tr ++ logs) = count is_fetch (trace st)
        /\ fetch_and_save_csv st = for_each (tickers c) process_ticker st1
        /\ (forall l, cfg (after l st1) = c1)
        /\ c' = c1).
Proof.
  intros c c'.
  assert (Hok : forall w, mkdir (out_dir c) (world st) = (Ok tt, w) ->
      exists m p logs,
        let tr := trace st ++ [EvMkdir (out_dir c)] in
        let c1 := with_mode_period c m p in
        let st1 := mkState w c1 (tr ++ logs) in
        enforce_yahoo_limits (interval c) (mode c) (period c) (mkState w c tr)
          = (Ok (m, p), mkState w c (tr ++ logs))
        /\ count is_fetch (tr ++ logs) = count is_fetch (trace st)
        /\ fetch_and_save_csv st = for_each (tickers c) process_ticker st1
        /\ (forall l, cfg (after l st1) = c1)
        /\ c' = c1).
  { intros w Hm.
    destruct (enforce_shape (interval c) (mode c) (period c)
                (mkState w c (trace st ++ [EvMkdir (out_dir c)])))
      as (m & p & logs & He & Hc).
    cbn [world cfg trace] in He.
    exists m, p, logs. cbv zeta.
    pose proof (run_mkdir_ok st w m p logs Hm He) as Hrun.
    split; [exact He|]. split.
    { rewrite !count_app, Hc. unfold count at 2. simpl. lia. }
    split; [exact Hrun|]. split.
    { intros l. apply after_cfg. }
    unfold c'. rewrite Hrun. apply (after_cfg (tickers c)). }
  assert (Hraise : forall e w,
            mkdir (out_dir c) (world st) = (Raise e, w) -> c' = c).
  { intros e w Hm. unfold c'. rewrite (run_mkdir_raises st e w Hm). reflexivity. }
  split; [|split; [exact Hraise | exact Hok]].
  destruct (mkdir (out_dir c) (world st)) as [[[]|e] w] eqn:Hm.
  - destruct (Hok w eq_refl) as (m & p & logs & _ & _ & _ & _ & ->).
    repeat split.
  - rewrite (Hraise e w eq_refl). repeat split.
Qed.


End Claims.

(** ** The theorems at work in the concrete world *)

Lemma enforce_clamps_long_periods_witness :
  fst (@enforce_yahoo_limits demo (u "1m") (u "max") None
         (demo_state [] (u "1m") (u "max") None None None))
  = Ok (u "period", Some (u "7d")).
Proof.
  assert (H1 : In (u "1m") intraday_intervals) by (left; reflexivity).
  assert (H2 : u "max" = u "period" \/ u "max" = u "max") by (right; reflexivity).
  assert (H3 : In None longish) by (left; reflexivity).
  destruct (@enforce_clamps_long_periods demo (u "1m") (u "max") None
              (demo_state [] (u "1m") (u "max") None None None) H1 H2 H3)
    as (line & E & _).
  rewrite E. reflexivity.
Defined.

Lemma enforce_identity_non_intraday_witness :
  @enforce_yahoo_limits demo (u "1d") (u "max") None
     (demo_state [] (u "1d") (u "max") None None None)
  = (Ok (u "max", None), demo_state [] (u "1d") (u "max") None None None).
Proof.
  apply (@enforce_identity_non_intraday demo).
  intros Hn. apply py_in_str in Hn. vm_compute in Hn. discriminate.
Defined.

Lemma enforce_identity_range_witness :
  @enforce_yahoo_limits demo (u "5m") (u "range") None
     (demo_state [] (u "5m") (u "range") (Some (u "2020-01-01"))
                 (Some (u "2024-01-01")) None)
  = (Ok (u "range", None),
     demo_state [] (u "5m") (u "range") (Some (u "2020-01-01"))
                (Some (u "2024-01-01")) None).
Proof.
  apply (@enforce_identity_range demo).
  right; right; left; reflexivity.
Defined.


Lemma no_data_warns_and_continues_witness :
  @count demo is_warning_line
    (trace (snd (@process_ticker demo (u " GONE ")
                   (demo_state [u " GONE "] (u "1d") (u "max") None None None))))
  = 1.
Proof.
  assert (H1 : strip (u " GONE ") <> []).
  { intros Hn. vm_compute in Hn. discriminate. }
  assert (H2 : @history demo (strip (u " GONE "))
                 (@history_call demo
                    (demo_cfg [u " GONE "] (u "1d") (u "max") None None None))
                 demo_world
               = (Ok None, demo_world)).
  { vm_compute. reflexivity. }
  assert (H3 : @None nat = None
               \/ exists df : nat, None = Some df /\ @df_empty demo df = true).
  { left. reflexivity. }
  destruct (@no_data_warns_and_continues demo [] [] (u " GONE ")
              (demo_state [u " GONE "] (u "1d") (u "max") None None None)
              None demo_world H1 H2 H3)
    as (E & _).
  apply (f_equal (fun x => @count demo is_warning_line (trace (snd x)))) in E.
  etransitivity; [exact E|]. vm_compute. reflexivity.
Defined.

Lemma output_file_name_witness :
  In (@EvToCsv demo 3 (u "out/BBCA.JK_1d_max.csv"))
     (trace (snd (@process_ticker demo (u "BBCA.JK")
                    (demo_state [u "BBCA.JK"] (u "1d") (u "max")
                                None None None)))).
Proof.
  assert (H1 : strip (u "BBCA.JK") <> []).
  { intros Hn. vm_compute in Hn. discriminate. }
  assert (H2 : @history demo (strip (u "BBCA.JK"))
                 (@history_call demo
                    (demo_cfg [u "BBCA.JK"] (u "1d") (u "max") None None None))
                 demo_world
               = (Ok (Some 3), demo_world)).
  { vm_compute. reflexivity. }
  assert (H3 : @df_empty demo 3 = false) by reflexivity.
  destruct (@output_file_name demo (u "BBCA.JK")
              (demo_state [u "BBCA.JK"] (u "1d") (u "max") None None None)
              3 demo_world H1 H2 H3)
    as (tag & w' & line & E & _ & _ & _ & Hname & _).
  rewrite E. cbn [snd trace]. rewrite (Hname eq_refl eq_refl eq_refl).
  right; right; left. reflexivity.
Defined.

Lemma blank_ticker_skipped_witness :
  @for_each demo _ [u "AAA"; u "  "; u "CCC"] process_ticker
     (demo_state [u "AAA"; u "  "; u "CCC"] (u "1d") (u "max") None None None)
  = @for_each demo _ [u "AAA"; u "CCC"] process_ticker
      (demo_state [u "AAA"; u "  "; u "CCC"] (u "1d") (u "max") None None None).
Proof.
  assert (H1 : strip (u "  ") = []) by reflexivity.
  destruct (@blank_ticker_skipped demo [u "AAA"] [u "CCC"] (u "  ")
              (demo_state [u "AAA"; u "  "; u "CCC"] (u "1d") (u "max")
                          None None None) H1)
    as (_ & _ & E).
  exact E.
Defined.


(** * The window *)

(** ** Parsing the ticker text *)

Lemma split_on_not_nil (sep : codepoint) (s : str) : split_on sep s <> [].
Proof.
  destruct s as [|c s]; simpl; [discriminate|].
  destruct (c =? sep)%N; [discriminate|].
  destruct (split_on sep s); discriminate.
Qed.

Lemma split_on_pieces (sep : codepoint) (s t : str) :
  In t (split_on sep s) -> ~ In sep t /\ (forall c, In c t -> In c s).
Proof.
  revert t. induction s as [|c s IH]; simpl; intros t.
  - intros [<-|[]]. split; [intros []|auto].
  - destruct (c =? sep)%N eqn:E.
    + intros [<-|Ht]; [split; [intros []|intros ? []]|].
      destruct (IH t Ht) as [N S]. split; [exact N | intros x Hx; right; auto].
    + destruct (split_on sep s) as [|h r] eqn:Hs.
      * intros [<-|[]]. split.
        -- intros [->|[]]. rewrite N.eqb_refl in E. discriminate.
        -- intros x [<-|[]]. left; reflexivity.
      * intros [<-|Ht].
        -- destruct (IH h (or_introl eq_refl)) as [N S]. split.
           ++ intros [->|Hin]; [rewrite N.eqb_refl in E; discriminate | auto].
           ++ intros x [<-|Hx]; [left; reflexivity | right; auto].
        -- destruct (IH t (or_intror Ht)) as [N S].
           split; [exact N | intros x Hx; right; auto].
Qed.

Lemma split_on_app (sep : codepoint) (a b : str) :
  split_on sep (a ++ sep :: b) = split_on sep a ++ split_on sep b.
Proof.
  induction a as [|c a IH]; simpl.
  - rewrite N.eqb_refl. reflexivity.
  - destruct (c =? sep)%N; [rewrite IH; reflexivity|].
    rewrite IH. pose proof (split_on_not_nil sep a) as Hn.
    destruct (split_on sep a) as [|h r]; [contradiction | reflexivity].
Qed.

Lemma split_on_whole (sep : codepoint) (t : str) :
  ~ In sep t -> split_on sep t = [t].
Proof.
  induction t as [|c t IH]; simpl; intros Hn; [reflexivity|].
  destruct (c =? sep)%N eqn:E.
  - apply N.eqb_eq in E. exfalso. apply Hn. left; exact E.
  - rewrite IH by (intros Hin; apply Hn; right; exact Hin). reflexivity.
Qed.

Lemma replace_char_app (a b : codepoint) (s t : str) :
  replace_char a b (s ++ t) = replace_char a b s ++ replace_char a b t.
Proof. apply map_app. Qed.

Lemma replace_char_absent (a b : codepoint) (s : str) :
  ~ In a s -> replace_char a b s = s.
Proof.
  induction s as [|c s IH]; simpl; intros Hn; [reflexivity|].
  destruct (c =? a)%N eqn:E.
  - apply N.eqb_eq in E. exfalso. apply Hn. left; exact E.
  - rewrite IH by (intros Hin; apply Hn; right; exact Hin). reflexivity.
Qed.

Lemma replace_char_gone (a b : codepoint) (s : str) :
  a <> b -> ~ In a (replace_char a b s).
Proof.
  intros Hab. induction s as [|c s IH]; simpl; [intros []|].
  intros [E|Hin]; [|auto].
  destruct (c =? a)%N eqn:Ec; [congruence|].
  apply N.eqb_neq in Ec. congruence.
Qed.

Lemma replace_char_keeps_out (a b x : codepoint) (s : str) :
  x <> b -> ~ In x s -> ~ In x (replace_char a b s).
Proof.
  intros Hx. induction s as [|c s IH]; simpl; [auto|].
  intros Hn [E|Hin].
  - destruct (c =? a)%N; [congruence|]. apply Hn. left; exact E.
  - apply IH; [|exact Hin]. intros H'. apply Hn. right; exact H'.
Qed.

(** The text with newlines and commas turned into spaces. *)
Lemma normalized_chars (raw : str) :
  let s := replace_char 44%N 32%N (replace_char 10%N 32%N raw) in
  ~ In 44%N s /\ ~ In 10%N s.
Proof.
  cbv zeta. split.
  - apply replace_char_gone. discriminate.
  - apply replace_char_keeps_out; [discriminate|].
    apply replace_char_gone. discriminate.
Qed.


(** X1. Every ticker [download] parses out of the text is non-blank and
    holds no space, no comma and no newline. *)
Theorem parse_tickers_clean (raw t : str) :
  In t (parse_tickers raw) ->
  strip t <> [] /\ ~ In 32%N t /\ ~ In 44%N t /\ ~ In 10%N t.
Proof.
  unfold parse_tickers. rewrite filter_In. intros [Hin Hnb].
  destruct (split_on_pieces _ _ _ Hin) as [H32 Hsub].
  destruct (normalized_chars raw) as [H44 H10]. cbv zeta in H44, H10.
  split.
  - unfold nonblank in Hnb. intros E. rewrite E in Hnb. discriminate.
  - split; [exact H32|]. split; intros Hc; [apply H44 | apply H10]; auto.
Qed.

Lemma replace_char_cons (a b c : codepoint) (s : str) :
  replace_char a b (c :: s) = (if (c =? a)%N then b else c) :: replace_char a b s.
Proof. reflexivity. Qed.

Lemma parse_tickers_app (sep : codepoint) (a b : str) :
  In sep [32; 44; 10]%N ->
  parse_tickers (a ++ sep :: b) = parse_tickers a ++ parse_tickers b.
Proof.
  intros Hs. unfold parse_tickers.
  rewrite replace_char_app, replace_char_cons, replace_char_app, replace_char_cons.
  destruct Hs as [<-|[<-|[<-|[]]]]; cbn [N.eqb Pos.eqb];
    rewrite split_on_app, filter_app; reflexivity.
Qed.

Lemma clean_token_chars (t : str) (c : codepoint) :
  clean_token t -> In c t -> is_space c = false /\ c <> 44%N.
Proof.
  intros [_ Hall] Hin. rewrite forallb_forall in Hall.
  specialize (Hall c Hin). unfold is_separator in Hall.
  apply negb_true_iff, orb_false_iff in Hall. destruct Hall as [Hs Hc].
  split; [exact Hs|]. apply N.eqb_neq. exact Hc.
Qed.

Lemma clean_token_nonblank (t : str) : clean_token t -> nonblank t = true.
Proof.
  intros Ht. unfold nonblank.
  destruct (py_not_str (strip t)) eqn:E; [|reflexivity].
  apply py_not_str_nil, strip_nil_iff in E.
  destruct Ht as [Hne Hall]. destruct t as [|c t]; [contradiction|].
  simpl in E, Hall. apply andb_true_iff in E, Hall.
  destruct E as [E _], Hall as [Hall _]. unfold is_separator in Hall.
  rewrite E in Hall. discriminate.
Qed.

Lemma parse_tickers_token (t : str) : clean_token t -> parse_tickers t = [t].
Proof.
  intros Ht. unfold parse_tickers.
  assert (Hno : forall c, is_space c = true \/ c = 44%N -> ~ In c t).
  { intros c Hc Hin. destruct (clean_token_chars t c Ht Hin) as [Hs H44].
    destruct Hc as [Hc | Hc]; congruence. }
  rewrite (replace_char_absent 10%N 32%N t) by (apply Hno; left; reflexivity).
  rewrite (replace_char_absent 44%N 32%N t) by (apply Hno; right; reflexivity).
  rewrite split_on_whole by (apply Hno; left; reflexivity).
  simpl. rewrite (clean_token_nonblank t Ht). reflexivity.
Qed.

Lemma parse_tickers_join (sep : codepoint) (l : list str) :
  In sep [32; 44; 10]%N ->
  Forall clean_token l ->
  parse_tickers (join sep l) = l.
Proof.
  intros Hs Hl. induction Hl as [|t l Ht Hl IH]; [reflexivity|].
  destruct l as [|t' l'].
  - simpl. apply parse_tickers_token. exact Ht.
  - change (join sep (t :: t' :: l')) with (t ++ sep :: join sep (t' :: l')).
    rewrite parse_tickers_app by exact Hs.
    rewrite parse_tickers_token by exact Ht. rewrite IH. reflexivity.
Qed.

(** ** Trimming *)

Lemma lstrip_head (c : codepoint) (s : str) :
  is_space c = false -> lstrip (c :: s) = c :: s.
Proof. intros E. simpl. rewrite E. reflexivity. Qed.

(** The trim drops a run of white space at either end and nothing else. *)
Lemma strip_split (s : str) :
  exists pre post,
    s = pre ++ strip s ++ post
    /\ forallb is_space pre = true /\ forallb is_space post = true.
Proof.
  destruct (lstrip_split s) as (pre & E1 & H1).
  destruct (lstrip_split (rev (lstrip s))) as (q & E2 & H2).
  exists pre, (rev q). split.
  - unfold strip, rstrip. rewrite <- rev_app_distr, <- E2, rev_involutive.
    exact E1.
  - split; [exact H1 | rewrite forallb_rev; exact H2].
Qed.

Lemma strip_ends (s : str) (a b : codepoint) (m : str) :
  s = a :: m ->
  (exists r, s = r ++ [b]) ->
  is_space a = false -> is_space b = false ->
  strip s = s.
Proof.
  intros Es [r Er] Ha Hb. unfold strip, rstrip. subst s.
  rewrite lstrip_head by exact Ha. rewrite Er, rev_app_distr.
  change (rev [b] ++ rev r) with (b :: rev r).
  rewrite lstrip_head by exact Hb.
  change (rev (b :: rev r)) with (rev (rev r) ++ [b]).
  rewrite rev_involutive. reflexivity.
Qed.

Lemma clean_token_ends (t : str) :
  clean_token t ->
  (exists a m, t = a :: m /\ is_space a = false)
  /\ (exists r b, t = r ++ [b] /\ is_space b = false).
Proof.
  intros Ht. pose proof Ht as [Hne _]. split.
  - destruct t as [|a m]; [contradiction|]. exists a, m. split; [reflexivity|].
    apply (clean_token_chars _ a Ht). left; reflexivity.
  - destruct (exists_last Hne) as (r & b & E). exists r, b. split; [exact E|].
    apply (clean_token_chars _ b Ht). rewrite E. apply in_or_app.
    right; left; reflexivity.
Qed.

Lemma join_ends (sep : codepoint) (l : list str) :
  Forall clean_token l -> l <> [] ->
  (exists a m, join sep l = a :: m /\ is_space a = false)
  /\ (exists r b, join sep l = r ++ [b] /\ is_space b = false).
Proof.
  intros Hl. induction Hl as [|t l Ht Hl IH]; intros Hne; [contradiction|].
  destruct (clean_token_ends t Ht) as [(a & m & Ea & Ha) (r & b & Eb & Hb)].
  destruct l as [|t' l'].
  - simpl. split; [exists a, m | exists r, b]; auto.
  - change (join sep (t :: t' :: l')) with (t ++ sep :: join sep (t' :: l')).
    destruct IH as [_ (r' & b' & Er' & Hb')]; [discriminate|]. split.
    + exists a, (m ++ sep :: join sep (t' :: l')). rewrite Ea. auto.
    + exists (t ++ sep :: r'), b'. rewrite Er'.
      rewrite <- app_assoc. auto.
Qed.

Lemma strip_join (sep : codepoint) (l : list str) :
  Forall clean_token l -> strip (join sep l) = join sep l.
Proof.
  intros Hl. destruct l as [|t l]; [reflexivity|].
  destruct (join_ends sep (t :: l) Hl) as [(a & m & Ea & Ha) (r & b & Eb & Hb)];
    [discriminate|].
  apply (strip_ends _ a b m Ea); [exists r; exact Eb | exact Ha | exact Hb].
Qed.

(** X2. Tokens that are non-empty and hold no white space and no comma,
    written one after the other with a space, a comma or a newline
    between them, are read back by [download] as the same list: same
    tokens, same order, duplicates kept. *)
Theorem tickers_round_trip (sep : codepoint) (l : list str) :
  In sep [32; 44; 10]%N ->
  Forall clean_token l ->
  parse_tickers (strip (join sep l)) = l.
Proof.
  intros Hs Hl. rewrite strip_join by exact Hl.
  apply parse_tickers_join; assumption.
Qed.

(** X3. A space, a comma or a newline anywhere in the text splits it: the
    tickers of the whole are the tickers of the part before it followed
    by the tickers of the part after it. Runs of separators and mixed
    separators therefore add nothing. *)
Theorem separator_splits (sep : codepoint) (a b : str) :
  In sep [32; 44; 10]%N ->
  parse_tickers (a ++ sep :: b) = parse_tickers a ++ parse_tickers b
  /\ parse_tickers (a ++ sep :: sep :: b) = parse_tickers (a ++ sep :: b).
Proof.
  intros Hs. split; [apply parse_tickers_app; exact Hs|].
  rewrite !(parse_tickers_app sep a) by exact Hs.
  change (sep :: b) with ([] ++ sep :: b).
  rewrite (parse_tickers_app sep []) by exact Hs. reflexivity.
Qed.

(** ** Texts without tickers *)

Lemma nonblank_false_iff (t : str) :
  nonblank t = false <-> forallb is_space t = true.
Proof.
  unfold nonblank. rewrite negb_false_iff, py_not_str_nil. apply strip_nil_iff.
Qed.

Lemma filter_blank_pieces (s : str) :
  filter nonblank (split_on 32%N s) = [] <-> forallb is_space s = true.
Proof.
  induction s as [|c s IH]; [simpl; tauto|].
  cbn [split_on forallb]. destruct (c =? 32)%N eqn:E.
  - apply N.eqb_eq in E. subst c.
    change (filter nonblank ([] :: split_on 32%N s))
      with (filter nonblank (split_on 32%N s)).
    rewrite IH. change (is_space 32%N) with true. simpl. tauto.
  - pose proof (split_on_not_nil 32%N s) as Hn.
    destruct (split_on 32%N s) as [|h r]; [contradiction|].
    rewrite andb_true_iff, <- IH. cbn [filter].
    destruct (nonblank (c :: h)) eqn:Hc.
    + split; [discriminate|]. intros [Hs Hf].
      destruct (nonblank h) eqn:Hh; [discriminate|].
      apply nonblank_false_iff in Hh.
      assert (Hch : nonblank (c :: h) = false).
      { apply nonblank_false_iff. simpl. rewrite Hs, Hh. reflexivity. }
      congruence.
    + apply nonblank_false_iff in Hc. simpl in Hc.
      apply andb_true_iff in Hc. destruct Hc as [Hs Hh].
      apply nonblank_false_iff in Hh. rewrite Hh. tauto.
Qed.

Lemma normalized_space (raw : str) :
  forallb is_space (replace_char 44%N 32%N (replace_char 10%N 32%N raw))
  = forallb is_separator raw.
Proof.
  induction raw as [|c raw IH]; [reflexivity|].
  rewrite !replace_char_cons. cbn [forallb]. rewrite IH. f_equal.
  unfold is_separator. destruct (c =? 10)%N eqn:E10.
  - apply N.eqb_eq in E10. subst c. reflexivity.
  - destruct (c =? 44)%N eqn:E44.
    + apply N.eqb_eq in E44. subst c. reflexivity.
    + rewrite orb_false_r. reflexivity.
Qed.

(** No ticker comes out of a text exactly when the text is made of white
    space and commas only. *)
Lemma parse_tickers_nil_iff (raw : str) :
  parse_tickers raw = [] <-> forallb is_separator raw = true.
Proof.
  unfold parse_tickers. rewrite filter_blank_pieces, normalized_space. tauto.
Qed.

Lemma space_is_separator (s : str) :
  forallb is_space s = true -> forallb is_separator s = true.
Proof.
  rewrite !forallb_forall. intros Hs c Hc. unfold is_separator.
  rewrite (Hs c Hc). reflexivity.
Qed.

Lemma separator_strip (text : str) :
  forallb is_separator (strip text) = forallb is_separator text.
Proof.
  destruct (strip_split text) as (pre & post & E & Hpre & Hpost).
  rewrite E at 2. rewrite !forallb_app.
  rewrite (space_is_separator _ Hpre), (space_is_separator _ Hpost).
  rewrite andb_true_r. reflexivity.
Qed.

(** ** The run as a whole *)

Section Run.
Context `{Collaborators}.

Lemma enforce_clamp (i m : str) (p : option str) (st : State) :
  py_in str_eqb i intraday_intervals = true ->
  py_in str_eqb m [u "max"; u "period"] && py_in opt_str_eqb p longish = true ->
  enforce_yahoo_limits i m p st
    = (Ok (u "period", Some (if str_eqb i (u "1m") then u "7d" else u "60d")),
       mkState (world st) (cfg st)
         (trace st ++ [EvLog (if str_eqb i (u "1m") then line_clamp_7d
                              else line_clamp_60d)])).
Proof.
  intros Hi Hc. unfold enforce_yahoo_limits. rewrite Hi, Hc. cbn [negb].
  destruct (str_eqb i (u "1m")); reflexivity.
Qed.

(** The enforcer's result does not depend on the state, and it logs at
    most one line. *)
Lemma enforce_account (i m : str) (p : option str) :
  exists m' p' logs,
    (forall st, enforce_yahoo_limits i m p st
                = (Ok (m', p'), mkState (world st) (cfg st) (trace st ++ logs)))
    /\ Forall (fun ev => is_log ev = true) logs
    /\ List.length logs <= 1
    /\ (logs = [] <-> (m', p') = (m, p))
    /\ Forall (fun ev => is_warning_line ev = true) logs.
Proof.
  assert (Hid : forall s : State,
            (Ok (m, p), s)
            = (Ok (m, p), mkState (world s) (cfg s) (trace s ++ []))).
  { intros [w c tr]. simpl. rewrite app_nil_r. reflexivity. }
  destruct (py_in str_eqb i intraday_intervals) eqn:Hi.
  - destruct (py_in str_eqb m [u "max"; u "period"]
              && py_in opt_str_eqb p longish) eqn:Hc.
    + eexists _, _, _. split; [intros st; apply enforce_clamp; assumption|].
      split; [repeat constructor|]. split; [simpl; lia|]. split.
      * split; [discriminate|]. intros E. exfalso.
        apply andb_true_iff in Hc. destruct Hc as [_ Hp].
        injection E as _ Ep. rewrite <- Ep in Hp.
        destruct (str_eqb i (u "1m")); discriminate.
      * constructor; [|constructor].
        destruct (str_eqb i (u "1m")); reflexivity.
    + exists m, p, []. split.
      { intros st. rewrite enforce_no_clamp by assumption. apply Hid. }
      split; [constructor|]. split; [simpl; lia |]. split; [tauto | constructor].
  - exists m, p, []. split.
    { intros st. rewrite enforce_not_intraday by assumption. apply Hid. }
    split; [constructor|]. split; [simpl; lia |]. split; [tauto | constructor].
Qed.

(** One iteration, counted: a non-blank entry costs one provider call and
    two log lines, the fetch line and one line for the outcome, and at
    most one write; a blank entry costs nothing. *)
Lemma step_account (t : str) (st : State) :
  exists w evs,
    process_ticker t st = (Ok tt, mkState w (cfg st) (trace st ++ evs))
    /\ count is_fetch evs = (if nonblank t then 1 else 0)
    /\ count is_log evs = 2 * count is_fetch evs
    /\ count is_write evs <= count is_fetch evs
    /\ Forall (step_event_ok (cfg st) (strip t)) evs
    /\ fetched evs = (if nonblank t then [strip t] else []).
Proof.
  unfold nonblank. destruct (py_not_str (strip t)) eqn:Hb.
  - apply py_not_str_nil in Hb. exists (world st), [].
    rewrite step_blank by assumption. rewrite app_nil_r.
    destruct st; simpl. repeat split; auto.
  - assert (Hne : strip t <> []).
    { intros E. apply py_not_str_nil in E. congruence. }
    destruct (history (strip t) (history_call (cfg st)) (world st))
      as [[[df|]|e] w] eqn:Hh.
    + destruct (df_empty df) eqn:He.
      * exists w, (events_no_data (cfg st) (strip t)).
        rewrite (step_empty _ _ _ _ Hne Hh He).
        repeat split; try (simpl; lia); repeat constructor.
      * destruct (to_csv (csv_friendly df) (out_path (cfg st) (strip t)) w)
          as [[[]|e] w'] eqn:Hw.
        -- exists w', (events_saved (cfg st) (strip t) df).
           rewrite (step_saved _ _ _ _ _ Hne Hh He Hw).
           repeat split; try (simpl; lia); repeat constructor.
        -- exists w', (events_save_error (cfg st) (strip t) df e).
           rewrite (step_save_error _ _ _ _ _ _ Hne Hh He Hw).
           repeat split; try (simpl; lia); repeat constructor.
    + exists w, (events_no_data (cfg st) (strip t)).
      rewrite (step_none _ _ _ Hne Hh).
      repeat split; try (simpl; lia); repeat constructor.
    + exists w, (events_fetch_error (cfg st) (strip t) e).
      rewrite (step_fetch_error _ _ _ _ Hne Hh).
      repeat split; try (simpl; lia); repeat constructor.
Qed.

Lemma loop_account (l : list str) (st : State) :
  exists w evs,
    for_each l process_ticker st = (Ok tt, mkState w (cfg st) (trace st ++ evs))
    /\ count is_fetch evs = List.length (filter nonblank l)
    /\ count is_log evs = 2 * count is_fetch evs
    /\ count is_write evs <= count is_fetch evs
    /\ Forall (fun ev => exists t, In t l /\ step_event_ok (cfg st) (strip t) ev)
              evs
    /\ fetched evs = map strip (filter nonblank l).
Proof.
  revert st. induction l as [|t l IH]; intros st.
  - exists (world st), []. rewrite app_nil_r. destruct st; simpl.
    repeat split; auto.
  - destruct (step_account t st) as (w1 & ev1 & E1 & C1 & L1 & W1 & F1 & T1).
    rewrite for_each_cons, E1. cbn [snd].
    destruct (IH (mkState w1 (cfg st) (trace st ++ ev1)))
      as (w2 & ev2 & E2 & C2 & L2 & W2 & F2 & T2).
    cbn [cfg trace] in E2, F2.
    exists w2, (ev1 ++ ev2). rewrite E2, app_assoc. split; [reflexivity|].
    rewrite !count_app. split.
    { rewrite C1, C2. simpl filter. destruct (nonblank t); reflexivity. }
    split; [lia|]. split; [lia|]. split.
    { apply Forall_app. split.
      + eapply Forall_impl; [|exact F1]. intros ev Hev. exists t. simpl; auto.
      + eapply Forall_impl; [|exact F2]. intros ev (t' & Ht' & Hev).
        exists t'. simpl; auto. }
    unfold fetched in *. rewrite flat_map_app, T1, T2. simpl filter.
    destruct (nonblank t); reflexivity.
Qed.

(** A run whose [mkdir] succeeds: the enforcer's pair is assigned, then
    the loop runs; the run ends normally. *)
Lemma run_shape (st : State) (w : World) :
  let c := cfg st in
  mkdir (out_dir c) (world st) = (Ok tt, w) ->
  exists m p logs w' evs,
    let c1 := with_mode_period c m p in
    (forall s, enforce_yahoo_limits (interval c) (mode c) (period c) s
               = (Ok (m, p), mkState (world s) (cfg s) (trace s ++ logs)))
    /\ fetch_and_save_csv st
       = (Ok tt,
          mkState w' c1 (trace st ++ EvMkdir (out_dir c) :: logs ++ evs))
    /\ Forall (fun ev => is_log ev = true) logs
    /\ List.length logs <= 1
    /\ count is_fetch evs = List.length (filter nonblank (tickers c))
    /\ count is_log evs = 2 * count is_fetch evs
    /\ count is_write evs <= count is_fetch evs
    /\ Forall (fun ev => exists t, In t (tickers c)
                                   /\ step_event_ok c1 (strip t) ev) evs
    /\ fetched evs = map strip (filter nonblank (tickers c)).
Proof.
  intros c Hm.
  destruct (enforce_account (interval c) (mode c) (period c))
    as (m & p & logs & He & Hlog & Hlen & _).
  exists m, p, logs.
  pose proof (He (mkState w c (trace st ++ [EvMkdir (out_dir c)]))) as He1.
  cbn [world cfg trace] in He1.
  pose proof (run_mkdir_ok st w m p logs Hm He1) as Hrun.
  destruct (loop_account (tickers c)
              (mkState w (with_mode_period c m p)
                 ((trace st ++ [EvMkdir (out_dir c)]) ++ logs)))
    as (w' & evs & El & Cf & Cl & Cw & Fa & Tf).
  cbn [cfg trace] in El, Fa.
  exists w', evs. cbv zeta. split.
  { exact He. }
  split.
  { etransitivity; [exact Hrun|]. etransitivity; [exact El|].
    rewrite <- !app_assoc. reflexivity. }
  auto 10.
Qed.

End Run.

(** ** What [download] checks before it runs *)

Section Download.
Context `{Toolkit}.

Lemma download_missing (ui : Ui) (w : World) :
  strip (ui_tickers ui) = [] ->
  download ui w
  = (Ok tt, w,
     [GWarning (u "Missing tickers") (u "Please enter at least one ticker.")]).
Proof. intros E. unfold download. rewrite E. reflexivity. Qed.

Lemma download_invalid (ui : Ui) (w : World) :
  strip (ui_tickers ui) <> [] ->
  parse_tickers (strip (ui_tickers ui)) = [] ->
  download ui w
  = (Ok tt, w,
     [GWarning (u "Invalid tickers") (u "Could not parse any tickers.")]).
Proof.
  intros Hne E. unfold download.
  destruct (py_not_str (strip (ui_tickers ui))) eqn:Hb.
  - apply py_not_str_nil in Hb. contradiction.
  - rewrite E. reflexivity.
Qed.

Lemma parse_some_text (text : str) :
  forallb is_separator text = false ->
  strip text <> [] /\ parse_tickers (strip text) <> [].
Proof.
  intros Hs.
  assert (Hp : parse_tickers (strip text) <> []).
  { intros E. apply parse_tickers_nil_iff in E.
    rewrite separator_strip in E. congruence. }
  split; [|exact Hp]. intros E. rewrite E in Hp. apply Hp. reflexivity.
Qed.

Lemma download_bad_dates (ui : Ui) (w : World) :
  forallb is_separator (ui_tickers ui) = false ->
  startswith (u "Date range") (currentText (ui_mode ui)) = true ->
  date_ge (ui_start ui) (ui_end ui) = true ->
  download ui w
  = (Ok tt, w,
     [GWarning (u "Invalid dates") (u "Start date must be before end date.")]).
Proof.
  intros Hs Hr Hd. destruct (parse_some_text _ Hs) as [Hne Hp].
  unfold download.
  destruct (py_not_str (strip (ui_tickers ui))) eqn:Hb.
  { apply py_not_str_nil in Hb. contradiction. }
  destruct (parse_tickers (strip (ui_tickers ui))) as [|t l]; [contradiction|].
  cbv zeta. rewrite Hr, Hd. reflexivity.
Qed.

Lemma startswith_cons (x : codepoint) (p s : str) :
  startswith (x :: p) s = true ->
  exists s', s = x :: s' /\ startswith p s' = true.
Proof.
  destruct s as [|y s]; simpl; [discriminate|].
  rewrite andb_true_iff, N.eqb_eq. intros [-> E]. exists s. auto.
Qed.

Lemma date_range_not_duration (s : str) :
  startswith (u "Date range") s = true -> startswith (u "Duration") s = false.
Proof.
  intros E.
  apply (startswith_cons 68%N) in E. destruct E as (s1 & -> & E).
  apply (startswith_cons 97%N) in E. destruct E as (s2 & -> & _).
  reflexivity.
Qed.

Lemma download_accepted (ui : Ui) (w : World) :
  accepted ui = true ->
  download ui w = finished (fetch_and_save_csv (mkState w (download_config ui) [])).
Proof.
  unfold accepted. rewrite andb_true_iff, !negb_true_iff. intros [Hs Hd].
  destruct (parse_some_text _ Hs) as [Hne Hp].
  unfold download, download_config, download_mode, finished.
  destruct (py_not_str (strip (ui_tickers ui))) eqn:Hb.
  { apply py_not_str_nil in Hb. contradiction. }
  destruct (parse_tickers (strip (ui_tickers ui))) as [|t l]; [contradiction|].
  cbv zeta.
  destruct (startswith (u "Date range") (currentText (ui_mode ui))) eqn:Hr.
  - simpl in Hd. rewrite Hd.
    change (str_eqb (u "range") (u "range")) with true.
    change (str_eqb (u "range") (u "period")) with false.
    cbn [andb fst snd].
    change (str_eqb (u "range") (u "range")) with true. cbv iota.
    destruct (fetch_and_save_csv _) as [r st]. reflexivity.
  - destruct (startswith (u "Duration") (currentText (ui_mode ui))).
    + change (str_eqb (u "period") (u "range")) with false.
      change (str_eqb (u "period") (u "period")) with true.
      cbn [andb]. cbv iota.
      destruct (str_eqb (currentText (ui_period ui)) (u "max")).
      * cbn [fst snd]. change (str_eqb (u "max") (u "range")) with false.
        cbv iota. destruct (fetch_and_save_csv _) as [r st]. reflexivity.
      * cbn [fst snd]. change (str_eqb (u "period") (u "range")) with false.
        cbv iota. destruct (fetch_and_save_csv _) as [r st]. reflexivity.
    + change (str_eqb (u "max") (u "range")) with false.
      change (str_eqb (u "max") (u "period")) with false.
      cbn [andb fst snd]. cbv iota.
      change (str_eqb (u "max") (u "range")) with false. cbv iota.
      destruct (fetch_and_save_csv _) as [r st]. reflexivity.
Qed.

Lemma tickers_warning_cases (ui : Ui) (w : World) :
  forallb is_separator (ui_tickers ui) = true ->
  download ui w
  = (Ok tt, w,
     [GWarning (u "Missing tickers") (u "Please enter at least one ticker.")])
  \/ download ui w
     = (Ok tt, w,
        [GWarning (u "Invalid tickers") (u "Could not parse any tickers.")]).
Proof.
  intros Hs. destruct (py_not_str (strip (ui_tickers ui))) eqn:Hb.
  - left. apply download_missing. apply py_not_str_nil. exact Hb.
  - right. apply download_invalid.
    + intros E. apply py_not_str_nil in E. congruence.
    + apply parse_tickers_nil_iff. rewrite separator_strip. exact Hs.
Qed.

End Download.

(** ** The download action *)

Section DownloadAction.
Context `{Toolkit}.

(** X4. [download] answers with one of its two ticker warnings, and does
    nothing else (no provider call, the button untouched, the world as it
    was), exactly when the ticker text is made of white space and commas
    only; the warning is "Missing tickers" when the text is empty after
    the trim and "Invalid tickers" otherwise. *)
Theorem download_without_tickers (ui : Ui) (w : World) :
  (forallb is_separator (ui_tickers ui) = true <->
   exists title text,
     download ui w = (Ok tt, w, [GWarning title text])
     /\ (title = u "Missing tickers" \/ title = u "Invalid tickers"))
  /\ (forallb is_separator (ui_tickers ui) = true ->
      download ui w
      = (Ok tt, w,
         [if py_not_str (strip (ui_tickers ui))
          then GWarning (u "Missing tickers")
                        (u "Please enter at least one ticker.")
          else GWarning (u "Invalid tickers")
                        (u "Could not parse any tickers.")])).
Proof.
  assert (Hwarn : forallb is_separator (ui_tickers ui) = true ->
            download ui w
            = (Ok tt, w,
               [if py_not_str (strip (ui_tickers ui))
                then GWarning (u "Missing tickers")
                              (u "Please enter at least one ticker.")
                else GWarning (u "Invalid tickers")
                              (u "Could not parse any tickers.")])).
  { intros Hs. destruct (py_not_str (strip (ui_tickers ui))) eqn:Hb.
    - apply download_missing. apply py_not_str_nil. exact Hb.
    - apply download_invalid.
      + intros E. apply py_not_str_nil in E. congruence.
      + apply parse_tickers_nil_iff. rewrite separator_strip. exact Hs. }
  split; [|exact Hwarn]. split.
  - intros Hs. rewrite (Hwarn Hs).
    destruct (py_not_str (strip (ui_tickers ui))); eauto.
  - intros (title & text & E & Ht).
    destruct (forallb is_separator (ui_tickers ui)) eqn:Hs; [reflexivity|].
    exfalso.
    destruct (startswith (u "Date range") (currentText (ui_mode ui))
              && date_ge (ui_start ui) (ui_end ui)) eqn:Hd.
    + apply andb_true_iff in Hd. destruct Hd as [Hr Hd].
      rewrite (download_bad_dates ui w Hs Hr Hd) in E.
      injection E as <- _. destruct Ht as [Ht|Ht]; vm_compute in Ht; discriminate.
    + rewrite download_accepted in E.
      * unfold finished in E. discriminate.
      * unfold accepted. rewrite Hs, Hd. reflexivity.
Qed.

(** X5. With tickers in the text, the mode on a date range and a start
    date not before the end date, [download] shows "Invalid dates" and
    does nothing else; and it shows that warning in no other case. *)
Theorem download_checks_date_order (ui : Ui) (w : World) :
  (forallb is_separator (ui_tickers ui) = false
   /\ startswith (u "Date range") (currentText (ui_mode ui)) = true
   /\ date_ge (ui_start ui) (ui_end ui) = true)
  <->
  download ui w
  = (Ok tt, w,
     [GWarning (u "Invalid dates") (u "Start date must be before end date.")]).
Proof.
  split.
  - intros (Hs & Hr & Hd). apply download_bad_dates; assumption.
  - intros E.
    destruct (forallb is_separator (ui_tickers ui)) eqn:Hs.
    { destruct (tickers_warning_cases ui w Hs) as [E'|E'];
        rewrite E' in E; vm_compute in E; discriminate. }
    destruct (startswith (u "Date range") (currentText (ui_mode ui))
              && date_ge (ui_start ui) (ui_end ui)) eqn:Hd.
    + apply andb_true_iff in Hd. tauto.
    + rewrite download_accepted in E.
      * unfold finished in E. discriminate.
      * unfold accepted. rewrite Hs, Hd. reflexivity.
Qed.

(** *** Reading the trace of a finished download *)

Lemma in_finished (R : Result unit * State) (ev : Event) :
  In (GRun ev) (snd (finished R)) <-> In ev (trace (snd R)).
Proof.
  unfold finished. cbn [snd]. split.
  - intros [F|Hin]; [discriminate|].
    apply in_app_or in Hin. destruct Hin as [Hin|[F|[]]]; [|discriminate].
    apply in_map_iff in Hin. destruct Hin as (x & E & Hx).
    injection E as ->. exact Hx.
  - intros Hin. right. apply in_or_app. left. apply in_map. exact Hin.
Qed.




Lemma log_is_not_fetch (logs : list Event) :
  Forall (fun ev => is_log ev = true) logs ->
  forall tk call, ~ In (EvHistory tk call) logs.
Proof.
  intros Hl tk call Hin. rewrite Forall_forall in Hl.
  specialize (Hl _ Hin). discriminate.
Qed.







Lemma duration_not_date_range (s : str) :
  startswith (u "Duration") s = true -> startswith (u "Date range") s = false.
Proof.
  intros E. destruct (startswith (u "Date range") s) eqn:Hr; [|reflexivity].
  rewrite (date_range_not_duration s Hr) in E. discriminate.
Qed.

(** X9. Choosing "max" in the period box under the duration mode is the
    same request as the maximum mode: with the other widgets equal, the
    two downloads do the same thing. *)
Theorem period_max_is_max_mode
  (win : Window) (text : str) (m1 p1 m2 p2 : Combo) (s e : QDate) (i : Combo)
  (a adj : bool) (out : str) (f1 f2 f3 g1 g2 g3 : bool) (w : World) :
  startswith (u "Duration") (currentText m1) = true ->
  currentText p1 = u "max" ->
  startswith (u "Date range") (currentText m2) = false ->
  startswith (u "Duration") (currentText m2) = false ->
  download (mkUi win text m1 p1 s e i a adj out f1 f2 f3) w
  = download (mkUi win text m2 p2 s e i a adj out g1 g2 g3) w.
Proof.
  intros Hd Hp Hr2 Hd2. pose proof (duration_not_date_range _ Hd) as Hr1.
  destruct (forallb is_separator text) eqn:Hs.
  - destruct (py_not_str (strip text)) eqn:Hb.
    + apply py_not_str_nil in Hb. rewrite !download_missing by exact Hb.
      reflexivity.
    + assert (Hne : strip text <> []).
      { intros E. apply py_not_str_nil in E. congruence. }
      assert (Hnil : parse_tickers (strip text) = []).
      { apply parse_tickers_nil_iff. rewrite separator_strip. exact Hs. }
      rewrite !download_invalid by assumption. reflexivity.
  - rewrite !download_accepted.
    + f_equal. f_equal. f_equal.
      unfold download_config, download_mode.
      cbn [ui_mode ui_period ui_tickers ui_interval ui_actions ui_auto_adjust
           ui_out_dir ui_start ui_end].
      rewrite Hr1, Hd, Hp, Hr2, Hd2. reflexivity.
    + unfold accepted. cbn [ui_tickers ui_mode ui_start ui_end].
      rewrite Hs, Hr2. reflexivity.
    + unfold accepted. cbn [ui_tickers ui_mode ui_start ui_end].
      rewrite Hs, Hr1. reflexivity.
Qed.

Lemma long_period_in_longish (p : str) :
  py_in opt_str_eqb (Some p) longish = py_in str_eqb p long_periods.
Proof. reflexivity. Qed.

Lemma history_call_same (c : DownloadConfig) :
  history_call (with_mode_period c (mode c) (period c)) = history_call c.
Proof. reflexivity. Qed.

(** X10. End to end, with an intraday interval: when the mode is not a
    date range and the request is for the maximum or for one of the long
    periods, the run logs the clamp warning and every provider call of
    the download asks for [7d] (interval [1m]) or [60d] (the other
    intraday intervals), never for what was chosen. *)
Theorem intraday_download_is_clamped (ui : Ui) (w w' : World) :
  accepted ui = true ->
  mkdir (expanduser (ui_out_dir ui)) w = (Ok tt, w') ->
  In (currentText (ui_interval ui)) intraday_intervals ->
  startswith (u "Date range") (currentText (ui_mode ui)) = false ->
  startswith (u "Duration") (currentText (ui_mode ui)) = false
  \/ In (currentText (ui_period ui)) long_periods ->
  let i := currentText (ui_interval ui) in
  let tr := snd (download ui w) in
  In (GRun (EvLog (if str_eqb i (u "1m") then line_clamp_7d else line_clamp_60d)))
     tr
  /\ forall tk call,
       In (GRun (EvHistory tk call)) tr ->
       call = HistoryPeriod (if str_eqb i (u "1m") then u "7d" else u "60d") i
                            (ui_actions ui) (ui_auto_adjust ui).
Proof.
  intros Ha Hm Hi Hr Hlong i tr. unfold tr.
  rewrite (download_accepted ui w Ha).
  set (c := download_config ui).
  assert (Hclamp : py_in str_eqb (mode c) [u "max"; u "period"]
                   && py_in opt_str_eqb (period c) longish = true).
  { unfold c, download_config, download_mode. cbn [mode period]. rewrite Hr.
    destruct (startswith (u "Duration") (currentText (ui_mode ui))) eqn:Hd;
      [|reflexivity].
    destruct Hlong as [F|Hl]; [discriminate|].
    destruct (str_eqb (currentText (ui_period ui)) (u "max")); [reflexivity|].
    cbn [fst snd]. rewrite long_period_in_longish.
    apply py_in_str in Hl. rewrite Hl. reflexivity. }
  apply py_in_str in Hi.
  destruct (run_shape (mkState w c []) w' Hm)
    as (m & p & logs & w2 & evs & He & E & Hlog & _ & _ & _ & _ & Fa & _).
  cbn [cfg trace app] in He, E, Fa.
  pose proof (He (mkState w c [])) as He0.
  assert (Hint : interval c = i) by reflexivity.
  rewrite Hint in He0.
  rewrite (enforce_clamp i (mode c) (period c) _ Hi Hclamp) in He0.
  cbn [world cfg trace app] in He0.
  injection He0 as Em Ep El. subst m p logs.
  rewrite E. split.
  - apply in_finished. cbn [snd trace]. right. left. reflexivity.
  - intros tk call Hin. apply in_finished in Hin. cbn [snd trace] in Hin.
    destruct Hin as [F|[F|Hin]]; try discriminate.
    rewrite Forall_forall in Fa. destruct (Fa _ Hin) as (t & _ & Hok).
    simpl in Hok. destruct Hok as [_ ->].
    unfold history_call. cbn [mode period with_mode_period interval
                              include_actions auto_adjust].
    change (str_eqb (u "period") (u "range")) with false.
    change (str_eqb (u "period") (u "period")) with true. cbv iota.
    fold i. destruct (str_eqb i (u "1m")); reflexivity.
Qed.

(** X11. End to end, when nothing is clamped (a date range, or an
    interval that is not intraday, or a duration outside the long set):
    every provider call of the download carries what the widgets say. A
    date range sends both dates as ISO text; a duration sends the text of
    the period box, and [1mo] when that box has no text; the maximum
    mode sends [max]. *)
Theorem unclamped_download_sends_selection (ui : Ui) (w w' : World) :
  accepted ui = true ->
  mkdir (expanduser (ui_out_dir ui)) w = (Ok tt, w') ->
  let i := currentText (ui_interval ui) in
  let mt := currentText (ui_mode ui) in
  let pt := currentText (ui_period ui) in
  ~ In i intraday_intervals
  \/ startswith (u "Date range") mt = true
  \/ (startswith (u "Duration") mt = true /\ ~ In pt long_periods) ->
  forall tk call,
    In (GRun (EvHistory tk call)) (snd (download ui w)) ->
    (startswith (u "Date range") mt = true ->
     call = HistoryRange (Some (date_iso (ui_start ui)))
                         (Some (date_iso (ui_end ui))) i
                         (ui_actions ui) (ui_auto_adjust ui))
    /\ (startswith (u "Date range") mt = false ->
        startswith (u "Duration") mt = true -> pt <> u "max" ->
        call = HistoryPeriod (if py_not_str pt then u "1mo" else pt) i
                             (ui_actions ui) (ui_auto_adjust ui))
    /\ (startswith (u "Date range") mt = false ->
        startswith (u "Duration") mt = false \/ pt = u "max" ->
        call = HistoryPeriod (u "max") i (ui_actions ui) (ui_auto_adjust ui)).
Proof.
  intros Ha Hm i mt pt Hfree tk call.
  rewrite (download_accepted ui w Ha).
  set (c := download_config ui).
  assert (Hid : forall s, enforce_yahoo_limits (interval c) (mode c) (period c) s
                          = (Ok (mode c, period c), s)).
  { intros s. destruct Hfree as [Hn | [Hr | [Hd Hp]]].
    - apply enforce_not_intraday.
      destruct (py_in str_eqb (interval c) intraday_intervals) eqn:E;
        [|reflexivity].
      apply py_in_str in E. contradiction.
    - apply enforce_no_clamp. unfold c, download_config, download_mode.
      cbn [mode period]. fold mt. rewrite Hr. reflexivity.
    - apply enforce_no_clamp. unfold c, download_config, download_mode.
      cbn [mode period]. fold mt pt.
      rewrite (duration_not_date_range _ Hd), Hd.
      destruct (str_eqb pt (u "max")) eqn:Ep.
      + apply str_eqb_eq in Ep. exfalso. apply Hp. rewrite Ep.
        left; reflexivity.
      + cbn [fst snd]. rewrite long_period_in_longish.
        destruct (py_in str_eqb pt long_periods) eqn:El; [|reflexivity].
        apply py_in_str in El. contradiction. }
  destruct (run_shape (mkState w c []) w' Hm)
    as (m & p & logs & w2 & evs & He & E & Hlog & _ & _ & _ & _ & Fa & _).
  cbn [cfg trace app] in He, E, Fa.
  pose proof (He (mkState w c [])) as He0. rewrite Hid in He0.
  injection He0 as Em Ep _. subst m p.
  rewrite E. intros Hin. apply in_finished in Hin. cbn [snd trace] in Hin.
  destruct Hin as [F|Hin]; [discriminate|].
  apply in_app_or in Hin. destruct Hin as [Hin|Hin].
  { exfalso. exact (log_is_not_fetch logs Hlog tk call Hin). }
  rewrite Forall_forall in Fa. destruct (Fa _ Hin) as (t & _ & Hok).
  simpl in Hok. destruct Hok as [_ ->]. rewrite history_call_same.
  unfold c, history_call, download_config, download_mode.
  cbn [mode period start end_ interval include_actions auto_adjust].
  fold mt pt i.
  assert (Hor : forall p d, py_or (Some p) d = if py_not_str p then d else p).
  { intros [|x p] d; reflexivity. }
  destruct (startswith (u "Date range") mt) eqn:Hr.
  - cbn [fst snd]. change (str_eqb (u "range") (u "range")) with true.
    cbv iota. repeat match goal with |- _ /\ _ => split end; intros;
      try discriminate; reflexivity.
  - destruct (startswith (u "Duration") mt) eqn:Hd.
    + destruct (str_eqb pt (u "max")) eqn:Ep.
      * cbn [fst snd]. change (str_eqb (u "max") (u "range")) with false.
        change (str_eqb (u "max") (u "period")) with false. cbv iota.
        apply str_eqb_eq in Ep.
        repeat match goal with |- _ /\ _ => split end; intros;
          try discriminate; try contradiction; reflexivity.
      * cbn [fst snd]. change (str_eqb (u "period") (u "range")) with false.
        change (str_eqb (u "period") (u "period")) with true. cbv iota.
        apply str_eqb_neq in Ep. rewrite Hor.
        repeat match goal with |- _ /\ _ => split end; intros;
          try discriminate; try reflexivity.
        match goal with Hx : _ \/ _ |- _ => destruct Hx end;
          [discriminate | contradiction].
    + cbn [fst snd]. change (str_eqb (u "max") (u "range")) with false.
      change (str_eqb (u "max") (u "period")) with false. cbv iota.
      repeat match goal with |- _ /\ _ => split end; intros;
        try discriminate; reflexivity.
Qed.


End DownloadAction.

(** ** More on the pipeline *)

Section PipelineExtras.
Context `{Collaborators}.

(** X13. When [mkdir] raises, the run raises the same exception at once:
    nothing is logged, the provider is not called, nothing is written,
    and the configuration object keeps the mode and period it had. *)
Theorem run_aborts_on_mkdir_error (st : State) (e : PyExc) (w : World) :
  mkdir (out_dir (cfg st)) (world st) = (Raise e, w) ->
  exists st',
    fetch_and_save_csv st = (Raise e, st')
    /\ world st' = w
    /\ cfg st' = cfg st
    /\ trace st' = trace st ++ [EvMkdir (out_dir (cfg st))].
Proof.
  intros Hm. eexists. split; [apply run_mkdir_raises; exact Hm|].
  repeat split.
Qed.


(** X15. A ticker whose fetch returns rows and whose write succeeds adds
    four events: the fetch line, the provider call, the write of the
    CSV-friendly frame, and one line that starts with the check mark and
    ends with the path written. No warning and no error is logged. *)
Theorem saved_ticker_reports_path (t : str) (st : State) (df : DataFrame)
  (w w' : World) :
  let ticker := strip t in
  let c := cfg st in
  let p := truediv (out_dir c) (out_name ticker (interval c) (file_tag c)) in
  ticker <> [] ->
  history ticker (history_call c) (world st) = (Ok (Some df), w) ->
  df_empty df = false ->
  to_csv (csv_friendly df) p w = (Ok tt, w') ->
  let evs :=
    [EvLog (line_fetching ticker (interval c) (mode c));
     EvHistory ticker (history_call c);
     EvToCsv (csv_friendly df) p;
     EvLog (check_mark ++ u " Saved: " ++ path_str p)] in
  process_ticker t st = (Ok tt, mkState w' c (trace st ++ evs))
  /\ count is_warning_line evs = 0
  /\ count is_error_line evs = 0
  /\ count is_write evs = 1.
Proof.
  intros ticker c p Hne Hh He Hw evs.
  split; [exact (step_saved t st df w w' Hne Hh He Hw)|].
  repeat split.
Qed.

(** X16. The enforcer never raises and touches neither the world nor the
    configuration object. It logs at most one line, and it logs exactly
    when the pair it returns differs from the pair it was given. *)
Theorem enforce_logs_iff_changed (i m : str) (p : option str) (st : State) :
  exists m' p' logs,
    enforce_yahoo_limits i m p st
    = (Ok (m', p'), mkState (world st) (cfg st) (trace st ++ logs))
    /\ List.length logs <= 1
    /\ Forall (fun ev => is_warning_line ev = true) logs
    /\ (logs = [] <-> (m', p') = (m, p)).
Proof.
  destruct (enforce_account i m p)
    as (m' & p' & logs & He & _ & Hlen & Hiff & Hwarn).
  exists m', p', logs. auto.
Qed.

End PipelineExtras.

(** ** Settings *)

Section SettingsStore.
Context `{Toolkit}.

Lemma value_absent (s : Settings) (k : str) (d : Variant Geometry) :
  absent s k -> value s k d = d.
Proof. unfold absent, value. intros ->. reflexivity. Qed.

Lemma setCurrentIndex_restore (c1 c2 : Combo) :
  items c2 = items c1 -> combo_ok c1 ->
  setCurrentIndex (currentIndex c1) c2 = c1.
Proof.
  destruct c1 as [it1 i1], c2 as [it2 i2]. unfold combo_ok, setCurrentIndex.
  cbn [items currentIndex]. intros -> Hok. f_equal.
  destruct (0 <=? i1)%Z eqn:E0, (i1 <? Z.of_nat (List.length it1))%Z eqn:E1;
    cbn [andb]; try reflexivity;
    rewrite ?Z.leb_gt, ?Z.ltb_ge in *; lia.
Qed.

Lemma eq_str_bool (b : bool) : eq_str (VStr (bool_str b)) (u "true") = b.
Proof. destruct b; reflexivity. Qed.

Lemma saved_geometry (ui : Ui) (s : Settings) (d : Variant Geometry) :
  value (save_settings ui s) (u "window/geometry") d
  = VGeom (saveGeometry (ui_window ui)).
Proof. reflexivity. Qed.

Lemma saved_tickers (ui : Ui) (s : Settings) (d : Variant Geometry) :
  value (save_settings ui s) (u "ui/tickers") d = VStr (ui_tickers ui).
Proof. reflexivity. Qed.

Lemma saved_out_dir (ui : Ui) (s : Settings) (d : Variant Geometry) :
  value (save_settings ui s) (u "ui/out_dir") d = VStr (ui_out_dir ui).
Proof. reflexivity. Qed.

Lemma saved_mode_index (ui : Ui) (s : Settings) (d : Variant Geometry) :
  value (save_settings ui s) (u "ui/mode_index") d
  = VInt (currentIndex (ui_mode ui)).
Proof. reflexivity. Qed.

Lemma saved_period_index (ui : Ui) (s : Settings) (d : Variant Geometry) :
  value (save_settings ui s) (u "ui/period_index") d
  = VInt (currentIndex (ui_period ui)).
Proof. reflexivity. Qed.

Lemma saved_interval_index (ui : Ui) (s : Settings) (d : Variant Geometry) :
  value (save_settings ui s) (u "ui/interval_index") d
  = VInt (currentIndex (ui_interval ui)).
Proof. reflexivity. Qed.

Lemma saved_start_date (ui : Ui) (s : Settings) (d : Variant Geometry) :
  value (save_settings ui s) (u "ui/start_date") d
  = VStr (date_iso (ui_start ui)).
Proof. reflexivity. Qed.

Lemma saved_end_date (ui : Ui) (s : Settings) (d : Variant Geometry) :
  value (save_settings ui s) (u "ui/end_date") d = VStr (date_iso (ui_end ui)).
Proof. reflexivity. Qed.

Lemma saved_include_actions (ui : Ui) (s : Settings) (d : Variant Geometry) :
  value (save_settings ui s) (u "ui/include_actions") d
  = VStr (bool_str (ui_actions ui)).
Proof. reflexivity. Qed.

Lemma saved_auto_adjust (ui : Ui) (s : Settings) (d : Variant Geometry) :
  value (save_settings ui s) (u "ui/auto_adjust") d
  = VStr (bool_str (ui_auto_adjust ui)).
Proof. reflexivity. Qed.

Ltac ui_fields :=
  cbn [ui_window ui_tickers ui_mode ui_period ui_start ui_end ui_interval
       ui_actions ui_auto_adjust ui_out_dir ui_start_enabled ui_end_enabled
       ui_period_enabled].

Ltac ui_step :=
  cbv beta iota zeta delta
    [set_checks set_end set_start set_interval_index set_period_index
     set_mode_index set_out_dir set_tickers set_window update_mode_ui
     ui_window ui_tickers ui_mode ui_period ui_start ui_end ui_interval
     ui_actions ui_auto_adjust ui_out_dir ui_start_enabled ui_end_enabled
     ui_period_enabled want_str py_int truthy].

Ltac run_load :=
  unfold load_settings, load_date, gbind, gmodify, gread, glift;
  cbv beta zeta.

(** X17. What [save_settings] writes, [load_settings] reads back. Loaded
    into a window whose combo boxes have the same items, the store
    written from widgets [ui1] (combo indexes in range) restores the two
    texts, the three combo boxes and the two check boxes of [ui1]; each
    date is restored when its ISO text is not empty and parses to a valid
    date and is left alone otherwise; the enabled flags are set from the
    restored mode; and nothing raises. When Qt reads back the dates and
    the placement it wrote, the widgets are those of [ui1]. *)
Theorem settings_round_trip (ui1 ui2 : Ui) (s : Settings) :
  items (ui_mode ui2) = items (ui_mode ui1) ->
  items (ui_period ui2) = items (ui_period ui1) ->
  items (ui_interval ui2) = items (ui_interval ui1) ->
  combo_ok (ui_mode ui1) -> combo_ok (ui_period ui1) ->
  combo_ok (ui_interval ui1) ->
  let loaded :=
    mkUi (restored_window (ui_window ui1) (ui_window ui2))
         (ui_tickers ui1) (ui_mode ui1) (ui_period ui1)
         (restored_date (ui_start ui1) (ui_start ui2))
         (restored_date (ui_end ui1) (ui_end ui2))
         (ui_interval ui1) (ui_actions ui1) (ui_auto_adjust ui1)
         (ui_out_dir ui1)
         (ui_start_enabled ui2) (ui_end_enabled ui2) (ui_period_enabled ui2) in
  load_settings (save_settings ui1 s) ui2 = (Ok tt, update_mode_ui loaded)
  /\ (restored_window (ui_window ui1) (ui_window ui2) = ui_window ui1 ->
      restored_date (ui_start ui1) (ui_start ui2) = ui_start ui1 ->
      restored_date (ui_end ui1) (ui_end ui2) = ui_end ui1 ->
      load_settings (save_settings ui1 s) ui2 = (Ok tt, update_mode_ui ui1)).
Proof.
  destruct ui1 as [w1 t1 m1 p1 s1 e1 i1 a1 adj1 o1 x1 y1 z1].
  destruct ui2 as [w2 t2 m2 p2 s2 e2 i2 a2 adj2 o2 x2 y2 z2].
  ui_fields. intros Hm Hp Hi Om Op Oi.
  match goal with
  | |- _ = (Ok tt, update_mode_ui ?X) /\ _ => set (loaded := X)
  end.
  assert (E : load_settings
                (save_settings (mkUi w1 t1 m1 p1 s1 e1 i1 a1 adj1 o1 x1 y1 z1) s)
                (mkUi w2 t2 m2 p2 s2 e2 i2 a2 adj2 o2 x2 y2 z2)
              = (Ok tt, update_mode_ui loaded)).
  { unfold loaded, restored_window, restored_date. run_load.
    rewrite saved_geometry, saved_start_date, saved_end_date. ui_step.
    destruct (restoreGeometry (VGeom (saveGeometry w1)) w2) as [x|e];
      rewrite saved_tickers; ui_step;
      rewrite saved_out_dir; ui_step;
      rewrite saved_mode_index; ui_step;
      rewrite (setCurrentIndex_restore m1 m2 Hm Om);
      (destruct (currentIndex m1 =? currentIndex m2)%Z; ui_step;
       rewrite saved_period_index; ui_step;
       rewrite (setCurrentIndex_restore p1 p2 Hp Op);
       rewrite saved_interval_index; ui_step;
       rewrite (setCurrentIndex_restore i1 i2 Hi Oi);
       destruct (py_not_str (date_iso s1)); cbn [negb andb];
       try destruct (date_isValid (date_fromString (date_iso s1)));
       destruct (py_not_str (date_iso e1)); cbn [negb andb];
       try destruct (date_isValid (date_fromString (date_iso e1)));
       ui_step;
       rewrite saved_include_actions, saved_auto_adjust, !eq_str_bool;
       reflexivity). }
  split; [exact E|].
  intros Hw Hs He. rewrite E. unfold loaded. rewrite Hw, Hs, He. reflexivity.
Qed.

Lemma setCurrentIndex_same (c : Combo) :
  combo_ok c -> setCurrentIndex (currentIndex c) c = c.
Proof. intros Hc. apply setCurrentIndex_restore; [reflexivity | exact Hc]. Qed.

(** X18. First run, or a store that holds none of the ten keys: the
    texts, the combo boxes, the dates and the placement stay as the
    constructor left them, but the two check boxes do not: "include
    actions" becomes checked and "auto-adjust" unchecked, whatever they
    were before (the constructor leaves them the other way round). *)
Theorem load_settings_defaults (ui : Ui) (s : Settings) :
  Forall (absent s) setting_keys ->
  combo_ok (ui_mode ui) -> combo_ok (ui_period ui) ->
  combo_ok (ui_interval ui) ->
  load_settings s ui
  = (Ok tt,
     update_mode_ui
       (mkUi (ui_window ui) (ui_tickers ui) (ui_mode ui) (ui_period ui)
             (ui_start ui) (ui_end ui) (ui_interval ui) true false
             (ui_out_dir ui) (ui_start_enabled ui) (ui_end_enabled ui)
             (ui_period_enabled ui))).
Proof.
  intros Habs Om Op Oi.
  assert (Hv : forall k d, In k setting_keys -> value s k d = d).
  { intros k d Hk. apply value_absent. rewrite Forall_forall in Habs. auto. }
  destruct ui as [w0 t0 m0 p0 s0 e0 i0 a0 adj0 o0 x0 y0 z0].
  revert Om Op Oi. ui_fields. intros Om Op Oi.
  run_load.
  repeat progress
    (rewrite ?Hv by (simpl; auto 12);
     rewrite ?(setCurrentIndex_same _ Om), ?(setCurrentIndex_same _ Op),
       ?(setCurrentIndex_same _ Oi), ?Z.eqb_refl;
     ui_step).
  reflexivity.
Qed.


(** X20. [save_settings] writes its ten keys and nothing else: a value
    stored under any other key reads as before, and what is then read
    under one of the ten keys depends on the widgets only, not on what
    the store held. *)
Theorem save_settings_frame (ui : Ui) (s : Settings) (k : str)
  (d : Variant Geometry) :
  (~ In k setting_keys -> value (save_settings ui s) k d = value s k d)
  /\ (In k setting_keys ->
      forall s', value (save_settings ui s) k d = value (save_settings ui s') k d).
Proof.
  split.
  - intros Hn.
    assert (Hk : forall key, In key setting_keys -> str_eqb key k = false).
    { intros key Hin. apply str_eqb_neq. intros ->. contradiction. }
    unfold save_settings, setValue, value. cbn [find fst].
    rewrite !Hk by (simpl; auto 12). reflexivity.
  - intros Hin s'.
    repeat (destruct Hin as [<-|Hin]; [reflexivity|]). destruct Hin.
Qed.

End SettingsStore.

(** ** The window at work in the concrete world *)

Lemma parse_tickers_clean_witness : ~ In 44%N (u "AAPL").
Proof.
  assert (Hin : In (u "AAPL") (parse_tickers (u "BBCA.JK, AAPL"))).
  { right; left; reflexivity. }
  exact (proj1 (proj2 (proj2 (parse_tickers_clean _ _ Hin)))).
Defined.

Lemma tickers_round_trip_witness :
  parse_tickers (strip (join 44%N [u "BBCA.JK"; u "AAPL"; u "BBCA.JK"]))
  = [u "BBCA.JK"; u "AAPL"; u "BBCA.JK"].
Proof.
  apply tickers_round_trip.
  - right; left; reflexivity.
  - repeat constructor; discriminate.
Defined.

Lemma separator_splits_witness :
  parse_tickers (u "AAPL" ++ 10%N :: u "MSFT")
  = parse_tickers (u "AAPL") ++ parse_tickers (u "MSFT").
Proof.
  apply (separator_splits 10%N (u "AAPL") (u "MSFT")).
  right; right; left; reflexivity.
Defined.



Lemma period_max_is_max_mode_witness :
  @download demo demo_kit (demo_ui (u "AAPL") 1 10 0) demo_world
  = @download demo demo_kit (demo_ui (u "AAPL") 2 3 0) demo_world.
Proof.
  apply (@period_max_is_max_mode demo demo_kit); reflexivity.
Defined.

Lemma intraday_download_is_clamped_witness :
  In (GRun (EvLog line_clamp_7d))
     (snd (@download demo demo_kit (demo_ui (u "AAPL") 2 10 8) demo_world)).
Proof.
  assert (Ha : @accepted demo demo_kit (demo_ui (u "AAPL") 2 10 8) = true)
    by reflexivity.
  assert (Hm : @mkdir demo
                 (@expanduser demo demo_kit
                    (ui_out_dir (demo_ui (u "AAPL") 2 10 8)))
                 demo_world = (Ok tt, demo_world)) by reflexivity.
  assert (Hi : In (currentText (ui_interval (demo_ui (u "AAPL") 2 10 8)))
                  intraday_intervals) by (left; reflexivity).
  destruct (@intraday_download_is_clamped demo demo_kit
              (demo_ui (u "AAPL") 2 10 8) demo_world demo_world
              Ha Hm Hi eq_refl (or_introl eq_refl)) as (Hlog & _).
  exact Hlog.
Defined.

Lemma unclamped_download_sends_selection_witness :
  exists call,
    In (GRun (EvHistory (u "AAPL") call))
       (snd (@download demo demo_kit (demo_ui (u "AAPL") 0 10 3) demo_world))
    /\ call = HistoryRange (Some (u "2023-01-01")) (Some (u "2024-01-01"))
                           (u "1h") false true.
Proof.
  assert (Ha : @accepted demo demo_kit (demo_ui (u "AAPL") 0 10 3) = true)
    by reflexivity.
  assert (Hm : @mkdir demo
                 (@expanduser demo demo_kit
                    (ui_out_dir (demo_ui (u "AAPL") 0 10 3)))
                 demo_world = (Ok tt, demo_world)) by reflexivity.
  assert (Hin : In (GRun (EvHistory (u "AAPL")
                      (@history_call demo
                         (@download_config demo demo_kit
                            (demo_ui (u "AAPL") 0 10 3)))))
                   (snd (@download demo demo_kit (demo_ui (u "AAPL") 0 10 3)
                           demo_world))).
  { vm_compute. right; right; right; left. reflexivity. }
  eexists. split; [exact Hin|].
  destruct (@unclamped_download_sends_selection demo demo_kit
              (demo_ui (u "AAPL") 0 10 3) demo_world demo_world Ha Hm
              (or_intror (or_introl eq_refl)) _ _ Hin) as (Hr & _).
  exact (Hr eq_refl).
Defined.

Lemma run_aborts_on_mkdir_error_witness :
  fst (@fetch_and_save_csv locked
         (@mkState locked demo_world
            (@mkConfig locked [u "AAPL"] (u "1d") false true (u "out")
                       (u "max") None None None) []))
  = Raise (Exc (u "Permission denied")).
Proof.
  destruct (@run_aborts_on_mkdir_error locked
              (@mkState locked demo_world
                 (@mkConfig locked [u "AAPL"] (u "1d") false true (u "out")
                            (u "max") None None None) [])
              (Exc (u "Permission denied")) demo_world eq_refl)
    as (st' & E & _).
  rewrite E. reflexivity.
Defined.


Lemma saved_ticker_reports_path_witness :
  @count demo is_write
    (trace (snd (@process_ticker demo (u "BRK/B")
                   (demo_state [u "BRK/B"] (u "1d") (u "max") None None None))))
  = 1.
Proof.
  assert (Hne : strip (u "BRK/B") <> []).
  { intros E. vm_compute in E. discriminate. }
  destruct (@saved_ticker_reports_path demo (u "BRK/B")
              (demo_state [u "BRK/B"] (u "1d") (u "max") None None None)
              3 demo_world demo_world Hne eq_refl eq_refl eq_refl)
    as (E & _).
  apply (f_equal (fun x => @count demo is_write (trace (snd x)))) in E.
  etransitivity; [exact E|]. vm_compute. reflexivity.
Defined.

Lemma settings_round_trip_witness :
  @load_settings demo demo_kit
    (@save_settings demo demo_kit (demo_ui (u "BBCA.JK, AAPL") 1 4 3) [])
    (demo_ui (u "") 2 10 0)
  = (Ok tt,
     @update_mode_ui demo demo_kit (demo_ui (u "BBCA.JK, AAPL") 1 4 3)).
Proof.
  assert (O1 : combo_ok (mkCombo mode_items 1)) by (unfold combo_ok; simpl; lia).
  assert (O2 : combo_ok (mkCombo period_items 4)) by (unfold combo_ok; simpl; lia).
  assert (O3 : combo_ok (mkCombo interval_items 3))
    by (unfold combo_ok; simpl; lia).
  destruct (@settings_round_trip demo demo_kit
              (demo_ui (u "BBCA.JK, AAPL") 1 4 3) (demo_ui (u "") 2 10 0) []
              eq_refl eq_refl eq_refl O1 O2 O3) as (_ & E).
  exact (E eq_refl eq_refl eq_refl).
Defined.

Lemma load_settings_defaults_witness :
  ui_actions (snd (@load_settings demo demo_kit []
                     (demo_ui (u "BBCA.JK") 2 10 0)))
  = true.
Proof.
  assert (Habs : Forall (@absent demo demo_kit []) setting_keys)
    by (repeat constructor).
  assert (O1 : combo_ok (mkCombo mode_items 2)) by (unfold combo_ok; simpl; lia).
  assert (O2 : combo_ok (mkCombo period_items 10))
    by (unfold combo_ok; simpl; lia).
  assert (O3 : combo_ok (mkCombo interval_items 0))
    by (unfold combo_ok; simpl; lia).
  rewrite (@load_settings_defaults demo demo_kit (demo_ui (u "BBCA.JK") 2 10 0)
             [] Habs O1 O2 O3).
  reflexivity.
Defined.

